(** * create_idea: the moderation policy, the generation stages and the
    API client of the content-idea bot, embedded from the Python sources.

    Layout (one module per source file):
    - [Py], [PyOps]   Python strings and values, and the interpreter's
                      operations on them ([in], [v[k]], [len], ...);
    - [Exceptions]    core/exceptions.py, the class hierarchy;
    - [World]         the remote API, the FSM context and the chat outbox,
                      threaded through a state-and-exception monad;
    - [Settings], [ProxyAPIClient], [PromptBuilder], [ModerationService],
      [IdeaGenerator], [PostGenerator], [Conversation]: the functions of the
      same names;
    - [Scenario]      a concrete runtime and remote for the examples;
    - [Notions]       the predicates the statements are written with.
    The properties follow the definitions. *)

From Stdlib Require Import ZArith NArith List String Ascii Bool Lia Floats.
From stdpp Require Import base option list strings gmap.

Set Warnings "-register-all,-inexact-float".
Open Scope Z_scope.

(* ===================================================================== *)
(** ** Python strings *)
(* ===================================================================== *)

Module Py.

(** A Python [str] is a sequence of Unicode code points. *)
Abbreviation pystr := (list N).

(** String literals of the sources are written in the file as UTF-8 text and
    decoded to code points. *)
Fixpoint utf8_go (bs : list N) (pending : nat) (acc : N) : pystr :=
  match bs with
  | [] => []
  | b :: rest =>
      if (b <? 128)%N then b :: utf8_go rest 0 0%N
      else if (b <? 192)%N then
        let acc' := (acc * 64 + (b - 128))%N in
        match pending with
        | S (S p) => utf8_go rest (S p) acc'
        | _ => acc' :: utf8_go rest 0 0%N
        end
      else if (b <? 224)%N then utf8_go rest 1 (b - 192)%N
      else if (b <? 240)%N then utf8_go rest 2 (b - 224)%N
      else utf8_go rest 3 (b - 240)%N
  end.

Definition utf8 (s : string) : pystr :=
  utf8_go (map N_of_ascii (list_ascii_of_string s)) 0 0%N.

Arguments utf8 : simpl never.

(** [s.startswith(p)] *)
Fixpoint startswith (s p : pystr) : bool :=
  match p, s with
  | [], _ => true
  | _ :: _, [] => false
  | c :: p', d :: s' => (c =? d)%N && startswith s' p'
  end.

(** [needle in hay] on two strings: substring test. *)
Fixpoint str_contains (hay needle : pystr) : bool :=
  startswith hay needle ||
  match hay with
  | [] => false
  | _ :: hay' => str_contains hay' needle
  end.

(** [any(p in text for p in patterns)] and the
    [for k in keywords: if k in text: return ...] loops. *)
Fixpoint any_in (text : pystr) (patterns : list pystr) : bool :=
  match patterns with
  | [] => false
  | p :: rest => if str_contains text p then true else any_in text rest
  end.

Definition str_eqb (a b : pystr) : bool := bool_decide (a = b).

(** [str.lower()] is a function of the Unicode character database. The
    development is parametric in it (class [Runtime] below); [lower_table]
    is its restriction to Basic Latin, Latin-1, the Cyrillic block
    U+0400..U+044F and U+0130, the only code points the concrete examples
    use. *)
Definition lower_cp (c : N) : pystr :=
  if ((65 <=? c) && (c <=? 90))%N then [(c + 32)%N]
  else if ((192 <=? c) && (c <=? 222) && negb (c =? 215))%N then [(c + 32)%N]
  else if (c =? 304)%N then [105%N; 775%N]
  else if ((1024 <=? c) && (c <=? 1039))%N then [(c + 80)%N]
  else if ((1040 <=? c) && (c <=? 1071))%N then [(c + 32)%N]
  else [c].

Definition lower_table (s : pystr) : pystr := flat_map lower_cp s.

(** [s.strip(chars)] by the test [drop] of what is stripped; [s.strip()]
    strips the whitespace of the Unicode database ([str_isspace] of class
    [Runtime]). *)
Fixpoint lstrip_with (drop : N -> bool) (s : pystr) : pystr :=
  match s with
  | [] => []
  | c :: rest => if drop c then lstrip_with drop rest else s
  end.

Definition strip_with (drop : N -> bool) (s : pystr) : pystr :=
  rev (lstrip_with drop (rev (lstrip_with drop s))).

(** [str(n)] for an integer, in decimal. *)
Fixpoint digits_go (fuel : nat) (n : N) (acc : pystr) : pystr :=
  match fuel with
  | O => acc
  | S fuel' =>
      let acc' := (48 + n mod 10)%N :: acc in
      if (n / 10 =? 0)%N then acc' else digits_go fuel' (n / 10)%N acc'
  end.

Definition str_of_nat (n : nat) : pystr :=
  digits_go (S n) (N.of_nat n) [].

Definition str_of_Z (z : Z) : pystr :=
  if z <? 0 then 45%N :: digits_go (S (Z.abs_nat z)) (Z.abs_N z) []
  else digits_go (S (Z.abs_nat z)) (Z.abs_N z) [].

(* ------------------------------------------------------------------- *)
(** ** Python values: what [json.loads] returns and what dicts hold *)

Inductive pyval :=
| PyNone
| PyBool (b : bool)
| PyInt (n : Z)
| PyFloat (f : float)
| PyStr (s : pystr)
| PyList (l : list pyval)
| PyDict (d : list (pystr * pyval)).

(** Truth value of an object ([if x:], [not x]). *)
Definition truthy (v : pyval) : bool :=
  match v with
  | PyNone => false
  | PyBool b => b
  | PyInt n => negb (n =? 0)
  | PyFloat f => negb (PrimFloat.eqb f 0%float)
  | PyStr s => match s with [] => false | _ => true end
  | PyList l => match l with [] => false | _ => true end
  | PyDict d => match d with [] => false | _ => true end
  end.

(** [isinstance(v, int)]: [bool] is a subclass of [int]. *)
Definition isinstance_int (v : pyval) : bool :=
  match v with PyInt _ | PyBool _ => true | _ => false end.

Definition isinstance_list (v : pyval) : bool :=
  match v with PyList _ => true | _ => false end.

(** Dictionaries keep insertion order; keys are unique. *)
Fixpoint dict_lookup (d : list (pystr * pyval)) (k : pystr) : option pyval :=
  match d with
  | [] => None
  | (k', v) :: rest => if str_eqb k' k then Some v else dict_lookup rest k
  end.

Fixpoint dict_set (d : list (pystr * pyval)) (k : pystr) (x : pyval)
  : list (pystr * pyval) :=
  match d with
  | [] => [(k, x)]
  | (k', v) :: rest =>
      if str_eqb k' k then (k', x) :: rest else (k', v) :: dict_set rest k x
  end.

(** [PyStr k == e] for a list element [e]. *)
Definition eq_str (k : pystr) (e : pyval) : bool :=
  match e with PyStr s => str_eqb s k | _ => false end.

End Py.
Export Py.

(* ===================================================================== *)
(** ** core/exceptions.py *)
(* ===================================================================== *)

Module Exceptions.

(** The exception classes that reach the modelled code: the bot's own
    hierarchy, the two [httpx] classes [chat_completion] names, the errors
    the interpreter raises on a badly shaped value, and [OtherException]
    for every other library error (the OpenAI client's among them). *)
Inductive exc_class :=
| OtherException
| TimeoutException
| ConnectError
| TypeError
| KeyError
| AttributeError
| BotException
| ConfigurationError
| APIError
| APIConnectionError
| APIRateLimitError
| APIAuthenticationError
| GenerationError
| ModerationError
| ImageGenerationError
| TranscriptionError.

#[global] Instance exc_class_eq_dec : EqDecision exc_class.
Proof. solve_decision. Defined.

(** The direct base class; [None] stands for the root [Exception]. *)
Definition base (c : exc_class) : option exc_class :=
  match c with
  | ConfigurationError | APIError | GenerationError | ModerationError
  | TranscriptionError => Some BotException
  | APIConnectionError | APIRateLimitError | APIAuthenticationError =>
      Some APIError
  | ImageGenerationError => Some GenerationError
  | _ => None
  end.

Fixpoint issubclass_upto (depth : nat) (c target : exc_class) : bool :=
  bool_decide (c = target) ||
  match depth, base c with
  | S d, Some b => issubclass_upto d b target
  | _, _ => false
  end.

(** [isinstance(e, target)], as an [except target] clause tests it. The
    hierarchy is three levels deep. *)
Definition issubclass (c target : exc_class) : bool :=
  issubclass_upto 3 c target.

(** An exception object: its class and [str(e)]. ([status_code],
    [retry_after] and [original_error] are carried by the Python objects
    and read by nothing in the modelled code.) *)
Record exn := mk_exn { exc_type : exc_class; exc_str : pystr }.

(** The four kinds the client reports for a failed transport. *)
Definition transport_failure (c : exc_class) : bool :=
  match c with
  | APIError | APIConnectionError | APIRateLimitError
  | APIAuthenticationError => true
  | _ => false
  end.

Inductive res (A : Type) :=
| Ok (a : A)
| Raise (e : exn).
Arguments Ok {A} a.
Arguments Raise {A} e.

End Exceptions.
Export Exceptions.

(** What the Python runtime supplies and the sources do not define. *)
Class Runtime := {
  (** [str.lower] *)
  str_lower : pystr -> pystr;
  (** [str.isspace] on one code point *)
  str_isspace : N -> bool;
  (** [json.loads]; [None] is [json.JSONDecodeError] *)
  json_loads : pystr -> option pyval;
  (** the text of an error the interpreter raises itself, by class and by
      the key or attribute it was raised for *)
  interp_error_str : exc_class -> pystr -> pystr
}.

(* ===================================================================== *)
(** ** The world around one session *)
(* ===================================================================== *)

Module World.

(** bot/states.py, [ContentGenerationStates]. *)
Inductive ContentGenerationStates :=
| INITIAL
| COLLECTING_NICHE
| COLLECTING_GOAL
| COLLECTING_FORMAT
| GENERATING_IDEAS
| WAITING_IDEA_CHOICE
| ASKING_IMAGE
| GENERATING_POST
| COMPLETED.

(** The FSM data dictionary of one user. Its keys are the ones the handlers
    write, each with the type its writers store; [None] is an absent key. *)
Record fsm_data := mk_data {
  off_topic_count : option Z;
  user_id : option Z;
  username : option pystr;
  niche : option pystr;
  goal : option pystr;
  format_type : option pystr;
  format_formatted : option pystr;
  ideas : option (list pyval);
  selected_idea : option pyval;
  need_image : option bool;
  last_buttons_message_id : option Z
}.

Definition empty_data : fsm_data :=
  mk_data None None None None None None None None None None None.

(** The response object of the OpenAI client, as far as the code reads it.
    [refusal = None] covers a missing attribute and a [None] value, which
    [hasattr(message, 'refusal') and message.refusal] does not tell apart. *)
Record ChatCompletionMessage := mk_message {
  role : pystr;
  refusal : option pystr;
  content : option pystr
}.

Record Choice := mk_choice {
  finish_reason : option pystr;
  message : ChatCompletionMessage
}.

Record ChatCompletion := mk_completion { choices : list Choice }.

Inductive raw_outcome :=
| returns (r : ChatCompletion)
| raises (e : exn).

(** The remote endpoint answers the [n]-th request of the session as a
    function of [n] and of the request's parameters. The world records the
    requests sent, the FSM context and the [text] arguments handed to the
    chat transport. *)
Record world := mk_world {
  remote : nat -> gmap string pyval -> raw_outcome;
  sent : list (gmap string pyval);
  fsm_state : option ContentGenerationStates;
  data : fsm_data;
  outbox : list pyval
}.

(** Computations: state passing, with exceptions that keep the state. *)
Definition M (A : Type) : Type := world -> res A * world.

Definition ret {A} (a : A) : M A := fun w => (Ok a, w).

Definition bind {A B} (m : M A) (k : A -> M B) : M B :=
  fun w => match m w with
           | (Ok a, w') => k a w'
           | (Raise e, w') => (Raise e, w')
           end.

Definition raise {A} (c : exc_class) (msg : pystr) : M A :=
  fun w => (Raise (mk_exn c msg), w).

Definition reraise {A} (e : exn) : M A := fun w => (Raise e, w).

(** [try: m  except Exception as e: h e]; the handler dispatches on the
    class and re-raises what no clause catches. *)
Definition try_except {A} (m : M A) (h : exn -> M A) : M A :=
  fun w => match m w with
           | (Ok a, w') => (Ok a, w')
           | (Raise e, w') => h e w'
           end.

(** A pure step that may raise. *)
Definition lift {A} (r : res A) : M A := fun w => (r, w).

Declare Scope py_scope.
Delimit Scope py_scope with py.
Notation "x <- c1 ;; c2" := (bind c1 (fun x => c2))
  (at level 100, c1 at next level, right associativity) : py_scope.
Notation "c1 ;;; c2" := (bind c1 (fun _ => c2))
  (at level 100, right associativity) : py_scope.

(** [client.chat.completions.create], called with the parameter dict. *)
Definition create (params : gmap string pyval) : M ChatCompletion :=
  fun w =>
    let w' := mk_world (remote w) (sent w ++ [params]) (fsm_state w)
                       (data w) (outbox w) in
    match remote w (length (sent w)) params with
    | returns r => (Ok r, w')
    | raises e => (Raise e, w')
    end.

(** [state.get_data()], [state.update_data(...)], [state.set_state(...)],
    [state.clear()], [message.answer(text)]. *)
Definition get_data : M fsm_data := fun w => (Ok (data w), w).

Definition update_data (f : fsm_data -> fsm_data) : M unit :=
  fun w => (Ok tt, mk_world (remote w) (sent w) (fsm_state w) (f (data w))
                            (outbox w)).

Definition set_state (s : ContentGenerationStates) : M unit :=
  fun w => (Ok tt, mk_world (remote w) (sent w) (Some s) (data w) (outbox w)).

Definition clear : M unit :=
  fun w => (Ok tt, mk_world (remote w) (sent w) None empty_data (outbox w)).

Definition answer (text : pyval) : M unit :=
  fun w => (Ok tt, mk_world (remote w) (sent w) (fsm_state w) (data w)
                            (outbox w ++ [text])).

Definition set_off_topic_count (n : Z) (d : fsm_data) : fsm_data :=
  mk_data (Some n) (user_id d) (username d) (niche d) (goal d)
          (format_type d) (format_formatted d) (ideas d) (selected_idea d)
          (need_image d) (last_buttons_message_id d).

Definition set_niche (x : pystr) (d : fsm_data) : fsm_data :=
  mk_data (off_topic_count d) (user_id d) (username d) (Some x) (goal d)
          (format_type d) (format_formatted d) (ideas d) (selected_idea d)
          (need_image d) (last_buttons_message_id d).

Definition set_goal (x : pystr) (d : fsm_data) : fsm_data :=
  mk_data (off_topic_count d) (user_id d) (username d) (niche d) (Some x)
          (format_type d) (format_formatted d) (ideas d) (selected_idea d)
          (need_image d) (last_buttons_message_id d).

(** A session is cleared when it has no state and no data. *)
Definition cleared (w : world) : Prop :=
  fsm_state w = None /\ data w = empty_data.

End World.
Export World.
Open Scope py_scope.

(* ===================================================================== *)
(** ** config/settings.py *)
(* ===================================================================== *)

Module Settings.

Record Settings := mk_settings {
  model_text_generation : pystr;
  model_final_post : pystr;
  max_tokens_ideas : Z;
  max_tokens_post : Z;
  temperature_ideas : float;
  temperature_post : float;
  temperature_image_prompt : float;
  temperature_moderation : float;
  max_off_topic_attempts : Z
}.

(** The [Field(default=...)] values. *)
Definition default_settings : Settings :=
  mk_settings (utf8 "gpt-4o-mini") (utf8 "gpt-5") 1500 2500
              0.8%float 0.7%float 0.9%float 0.3%float 3.

End Settings.
Export Settings.

(* ===================================================================== *)
(** ** api/proxyapi_client.py *)
(* ===================================================================== *)

Module ProxyAPIClient.
Section Client.
Context `{Runtime}.

Definition new_models : list pystr :=
  [utf8 "gpt-5"; utf8 "o1-preview"; utf8 "o1-mini"; utf8 "o3-mini"; utf8 "o3"].

Definition fixed_temp_models : list pystr :=
  [utf8 "gpt-5"; utf8 "o1-preview"; utf8 "o1-mini"; utf8 "o3-mini"; utf8 "o3"].

(** [for p in prefixes: if model_lower.startswith(p): return True] *)
Fixpoint starts_with_any (model_lower : pystr) (prefixes : list pystr) : bool :=
  match prefixes with
  | [] => false
  | p :: rest =>
      if startswith model_lower p then true else starts_with_any model_lower rest
  end.

Definition _uses_max_completion_tokens (model : pystr) : bool :=
  let model_lower := str_lower model in
  if starts_with_any model_lower new_models then true else false.

Definition _supports_custom_temperature (model : pystr) : bool :=
  let model_lower := str_lower model in
  if starts_with_any model_lower fixed_temp_models then false else true.

(** The arguments of [chat_completion]. [kwargs] holds the extra keyword
    arguments; Python binds the five named ones to their parameters, so
    none of them is a key of [kwargs]. *)
Record chat_args := mk_args {
  messages : pyval;
  model : pystr;
  temperature : float;
  max_tokens : option Z;
  json_mode : bool;
  kwargs : gmap string pyval
}.

Definition named_parameters : list string :=
  ["messages"; "model"; "temperature"; "max_tokens"; "json_mode"]%string.

Definition kwargs_wf (kw : gmap string pyval) : Prop :=
  Forall (fun k => kw !! k = None) named_parameters.

(** The parameter dict [chat_completion] passes to the client
    (source lines 215-237). *)
Definition build_params (a : chat_args) : gmap string pyval :=
  let params : gmap string pyval :=
    kwargs a ∪ <["messages" := messages a]> (<["model" := PyStr (model a)]> ∅) in
  let params :=
    if _supports_custom_temperature (model a)
    then <["temperature" := PyFloat (temperature a)]> params
    else params in
  let params :=
    match max_tokens a with
    | Some n =>
        if negb (n =? 0) then
          if _uses_max_completion_tokens (model a)
          then <["max_completion_tokens" := PyInt n]> params
          else <["max_tokens" := PyInt n]> params
        else params
    | None => params
    end in
  if json_mode a
  then <["response_format" := PyDict [(utf8 "type", PyStr (utf8 "json_object"))]]> params
  else params.

(** [str(x)] of an optional string inside an f-string. *)
Definition fmt_opt (o : option pystr) : pystr :=
  match o with Some s => s | None => utf8 "None" end.

Definition falsy_str (o : option pystr) : bool :=
  match o with Some (_ :: _) => false | _ => true end.

(** The body of the [try] block after the request (lines 249-274). *)
Definition extract_content (response : ChatCompletion) : M pystr :=
  match choices response with
  | [] => raise GenerationError (utf8 "API вернул пустой ответ без choices")
  | choice :: _ =>
      let message := message choice in
      if negb (falsy_str (refusal message)) then
        raise GenerationError
          (utf8 "Модель отказала в генерации контента: " ++ fmt_opt (refusal message))
      else
        match content message with
        | Some (c :: cs) => ret (c :: cs)
        | _ =>
            raise GenerationError
              (utf8 "API вернул пустой контент (finish_reason: "
                 ++ fmt_opt (finish_reason choice) ++ utf8 ")")
        end
  end.

(** The three [except] clauses (lines 276-314), tried in order. *)
Definition classify_error (e : exn) : M pystr :=
  if issubclass (exc_type e) TimeoutException then
    raise APIConnectionError (utf8 "Превышено время ожидания ответа от API")
  else if issubclass (exc_type e) ConnectError then
    raise APIConnectionError
      (utf8 "Не удалось подключиться к API. Проверьте интернет-соединение")
  else
    let error_message := str_lower (exc_str e) in
    if str_contains error_message (utf8 "429")
       || str_contains error_message (utf8 "rate limit") then
      raise APIRateLimitError
        (utf8 "Превышен лимит запросов к API. Попробуйте позже")
    else if str_contains error_message (utf8 "401")
            || str_contains error_message (utf8 "unauthorized")
            || str_contains error_message (utf8 "api key") then
      raise APIAuthenticationError
        (utf8 "Неверный API ключ или недостаточно прав")
    else
      raise APIError (utf8 "Ошибка API: " ++ exc_str e).

Definition chat_completion (a : chat_args) : M pystr :=
  try_except
    (response <- create (build_params a) ;;
     extract_content response)
    classify_error.

End Client.
End ProxyAPIClient.
Export ProxyAPIClient.

(* ===================================================================== *)
(** ** Operations of the interpreter on values *)
(* ===================================================================== *)

Module PyOps.
Section Ops.
Context `{Runtime}.

Definition interp_raise {A} (c : exc_class) (about : pystr) : res A :=
  Raise (mk_exn c (interp_error_str c about)).

(** [k in v] for a string [k]. *)
Definition py_contains (v : pyval) (k : pystr) : res bool :=
  match v with
  | PyDict d => Ok (match dict_lookup d k with Some _ => true | None => false end)
  | PyList l => Ok (existsb (eq_str k) l)
  | PyStr s => Ok (str_contains s k)
  | _ => interp_raise TypeError k
  end.

(** [v[k]] for a string [k]. *)
Definition py_getitem (v : pyval) (k : pystr) : res pyval :=
  match v with
  | PyDict d =>
      match dict_lookup d k with
      | Some x => Ok x
      | None => interp_raise KeyError k
      end
  | _ => interp_raise TypeError k
  end.

(** [v[k] = x] for a string [k]; the updated object is returned. *)
Definition py_setitem (v : pyval) (k : pystr) (x : pyval) : res pyval :=
  match v with
  | PyDict d => Ok (PyDict (dict_set d k x))
  | _ => interp_raise TypeError k
  end.

(** [v.get(k, dflt)] *)
Definition py_get (v : pyval) (k : pystr) (dflt : pyval) : res pyval :=
  match v with
  | PyDict d => Ok (match dict_lookup d k with Some x => x | None => dflt end)
  | _ => interp_raise AttributeError (utf8 "get")
  end.

(** [len(v)] *)
Definition py_len (v : pyval) : res nat :=
  match v with
  | PyStr s => Ok (length s)
  | PyList l => Ok (length l)
  | PyDict d => Ok (length d)
  | _ => interp_raise TypeError (utf8 "len")
  end.

End Ops.
End PyOps.
Export PyOps.

(* ===================================================================== *)
(** ** prompts/builders.py *)
(* ===================================================================== *)

(** The prompt builders fill the templates of prompts/templates.py with
    [str.format]; the templates are not among the sources, so the builders
    are parameters, from their arguments to the prompt text. A builder may
    raise (a template with an unknown field, key elements that cannot be
    iterated). Nothing below depends on the text of a prompt. *)
Class Prompts := {
  build_moderation_prompt : pystr -> pystr -> pystr -> res pystr;
  build_ideas_prompt : option pystr -> option pystr -> option pystr -> res pystr;
  build_post_prompt :
    option pystr -> option pystr -> option pystr ->
    pyval -> pyval -> pyval -> res pystr
}.

Module PromptBuilder.

Definition role_text (role : pystr) : pystr :=
  if str_eqb role (utf8 "moderator") then
    utf8 "Ты - модератор диалога. Твоя задача объективно оценивать релевантность сообщений."
  else if str_eqb role (utf8 "creator") then
    utf8 "Ты - креативный специалист по контент-маркетингу с богатым опытом."
  else
    utf8 "Ты - полезный помощник в создании контента. Ты дружелюбен, профессионален и всегда стремишься помочь.".

Definition build_system_message (role : pystr) : pyval :=
  PyDict [(utf8 "role", PyStr (utf8 "system"));
          (utf8 "content", PyStr (role_text role))].

Definition build_user_message (content : pystr) : pyval :=
  PyDict [(utf8 "role", PyStr (utf8 "user"));
          (utf8 "content", PyStr content)].

Definition build_messages (system_role user_prompt : pystr) : pyval :=
  PyList [build_system_message system_role; build_user_message user_prompt].

End PromptBuilder.
Export PromptBuilder.

(** The services hold an [api_client] and call its [chat_completion]. *)
Class ApiClient := { client_chat_completion : chat_args -> M pystr }.

(** main.py constructs the services with a [ProxyAPIClient]. *)
Definition proxy_api_client `{Runtime} : ApiClient :=
  {| client_chat_completion := chat_completion |}.

(* ===================================================================== *)
(** ** services/moderation.py *)
(* ===================================================================== *)

Module ModerationService.
Section Service.
Context `{Runtime} `{Prompts} `{ApiClient}.
Variable settings : Settings.

Definition nl2 : pystr := [10%N; 10%N].

(** [for field in required_fields: if field not in v: raise cls(msg field)] *)
Fixpoint require_fields (cls : exc_class) (msg : pystr -> pystr)
    (fields : list pystr) (v : pyval) : M unit :=
  match fields with
  | [] => ret tt
  | field :: rest =>
      present <- lift (py_contains v field) ;;
      if negb present then raise cls (msg field)
      else require_fields cls msg rest v
  end.

Definition required_fields : list pystr :=
  [utf8 "is_relevant"; utf8 "reason"; utf8 "suggestion"].

Definition check_relevance (current_step bot_question user_response : pystr)
  : M pyval :=
  try_except
    (prompt <- lift (build_moderation_prompt current_step bot_question user_response) ;;
     let messages := build_messages (utf8 "moderator") prompt in
     response <- client_chat_completion
                   (mk_args messages (model_text_generation settings)
                            (temperature_moderation settings) (Some 200) true ∅) ;;
     result <- match json_loads response with
               | Some r => ret r
               | None => raise ModerationError (utf8 "Ошибка парсинга ответа модерации")
               end ;;
     require_fields ModerationError
       (fun field => utf8 "Отсутствует поле '" ++ field ++ utf8 "' в ответе модерации")
       required_fields result ;;;
     is_relevant <- lift (py_getitem result (utf8 "is_relevant")) ;;
     reason <- lift (py_getitem result (utf8 "reason")) ;;
     ret result)
    (fun e =>
       if issubclass (exc_type e) ModerationError then reraise e
       else raise ModerationError
              (utf8 "Не удалось проверить релевантность: " ++ exc_str e)).

Definition farewell_message : pystr :=
  utf8 "Понимаю, что сейчас ты не готов работать над контентом 😌" ++ nl2
  ++ utf8 "Возвращайся, когда будешь готов! Отправь /start для начала новой сессии."
  ++ nl2 ++ utf8 "Всего хорошего! 👋".

(** [suggestion] is [None] when the caller leaves the argument out. *)
Definition get_redirection_message (attempt_number : Z) (bot_question : pystr)
    (suggestion : pyval) : pyval :=
  if attempt_number =? 1 then
    if truthy suggestion then suggestion
    else PyStr (utf8 "Давай сосредоточимся на создании твоего контента 😊"
                  ++ nl2 ++ bot_question)
  else if attempt_number =? 2 then
    PyStr (utf8 "Я понимаю, что тебе интересно, но я создан специально для генерации идей контента 🎯"
             ++ nl2 ++ utf8 "Пожалуйста, давай вернемся к нашей задаче."
             ++ nl2 ++ bot_question)
  else if attempt_number =? 3 then
    PyStr (utf8 "Я вижу, что тебя что-то отвлекает 😔" ++ nl2
             ++ utf8 "Мне важно помочь тебе создать качественный контент, "
             ++ utf8 "но для этого мне нужна информация." ++ nl2
             ++ utf8 "Если сейчас не подходящее время, мы можем продолжить позже."
             ++ nl2 ++ utf8 "Готов ответить на мой вопрос?" ++ nl2 ++ bot_question)
  else PyStr farewell_message.

Definition should_end_conversation (attempt_number : Z) : bool :=
  attempt_number >? max_off_topic_attempts settings.

Definition offensive_patterns : list pystr :=
  [utf8 "блять"; utf8 "бля"; utf8 "хуй"; utf8 "пизд"; utf8 "ебать";
   utf8 "еба"; utf8 "сука"; utf8 "пидор"; utf8 "мудак"; utf8 "долбоеб";
   utf8 "уебок"].

Definition detect_offensive_content (text : pystr) : bool :=
  let text_lower := str_lower text in
  any_in text_lower offensive_patterns.

End Service.
End ModerationService.
Export ModerationService.

(* ===================================================================== *)
(** ** services/idea_generator.py *)
(* ===================================================================== *)

Module IdeaGenerator.
Section Service.
Context `{Runtime} `{Prompts} `{ApiClient}.
Variable settings : Settings.

Definition idea_fields : list pystr :=
  [utf8 "id"; utf8 "title"; utf8 "description"; utf8 "key_elements"].

(** One turn of the validation loop on the idea at 1-based position [i];
    the idea is returned as the loop leaves it. *)
Definition check_idea (i : nat) (idea : pyval) : M pyval :=
  require_fields GenerationError
    (fun field => utf8 "Отсутствует поле '" ++ field ++ utf8 "' в идее " ++ str_of_nat i)
    idea_fields idea ;;;
  id <- lift (py_getitem idea (utf8 "id")) ;;
  idea <- (if negb (isinstance_int id)
           then lift (py_setitem idea (utf8 "id") (PyInt (Z.of_nat i)))
           else ret idea) ;;
  key_elements <- lift (py_getitem idea (utf8 "key_elements")) ;;
  if negb (isinstance_list key_elements) then
    raise GenerationError
      (utf8 "Поле 'key_elements' в идее " ++ str_of_nat i ++ utf8 " должно быть списком")
  else ret idea.

(** [for i, idea in enumerate(ideas[:5], 1): ...] *)
Fixpoint check_ideas (i : nat) (ideas : list pyval) : M (list pyval) :=
  match ideas with
  | [] => ret []
  | idea :: rest =>
      idea' <- check_idea i idea ;;
      rest' <- check_ideas (S i) rest ;;
      ret (idea' :: rest')
  end.

Definition generate_ideas (niche goal format_type : option pystr)
  : M (list pyval) :=
  try_except
    (prompt <- lift (build_ideas_prompt niche goal format_type) ;;
     let messages := build_messages (utf8 "creator") prompt in
     response <- client_chat_completion
                   (mk_args messages (model_text_generation settings)
                            (temperature_ideas settings)
                            (Some (max_tokens_ideas settings)) true ∅) ;;
     result <- match json_loads response with
               | Some r => ret r
               | None => raise GenerationError
                           (utf8 "Ошибка парсинга ответа при генерации идей")
               end ;;
     has_ideas <- lift (py_contains result (utf8 "ideas")) ;;
     if negb has_ideas then
       raise GenerationError (utf8 "Отсутствует поле 'ideas' в ответе")
     else
       ideas <- lift (py_getitem result (utf8 "ideas")) ;;
       match ideas with
       | PyList ideas =>
           (if negb (length ideas =? 5)%nat then
              if (length ideas <? 5)%nat then
                raise GenerationError
                  (utf8 "Недостаточно идей: получено " ++ str_of_nat (length ideas)
                     ++ utf8 ", ожидалось 5")
              else ret tt
            else ret tt) ;;;
           checked <- check_ideas 1 (take 5 ideas) ;;
           (* the loop wrote into the first five, which [ideas[:5]] returns *)
           ret checked
       | _ => raise GenerationError (utf8 "Поле 'ideas' должно быть списком")
       end)
    (fun e =>
       if issubclass (exc_type e) GenerationError then reraise e
       else raise GenerationError
              (utf8 "Не удалось сгенерировать идеи: " ++ exc_str e)).

End Service.
End IdeaGenerator.
Export IdeaGenerator.

(* ===================================================================== *)
(** ** services/post_generator.py *)
(* ===================================================================== *)

Module PostGenerator.
Section Service.
Context `{Runtime} `{Prompts} `{ApiClient}.
Variable settings : Settings.

(** The text test of the [except GenerationError] clause (lines 97-101). *)
Definition fallback_signature (e : exn) : bool :=
  let error_str := str_lower (exc_str e) in
  str_contains error_str (utf8 "пустой контент")
  || str_contains error_str (utf8 "отказала")
  || str_contains error_str (utf8 "finish_reason: length").

Definition fallback_model : pystr := utf8 "gpt-4o".

(** Lines 87-113: the request to the final-post model and its fallback. *)
Definition request_post (messages : pyval) : M pystr :=
  try_except
    (client_chat_completion
       (mk_args messages (model_final_post settings) (temperature_post settings)
                (Some (max_tokens_post settings)) true ∅))
    (fun e =>
       if issubclass (exc_type e) GenerationError then
         if fallback_signature e then
           client_chat_completion
             (mk_args messages fallback_model (temperature_post settings)
                      (Some (max_tokens_post settings)) true ∅)
         else reraise e
       else reraise e).

(** Lines 138-142: defaults of the optional fields, written into
    [post_data]. *)
Definition default_optional (post_data : pyval) : M pyval :=
  has_hashtags <- lift (py_contains post_data (utf8 "hashtags")) ;;
  reset <- (if negb has_hashtags then ret true
            else hashtags <- lift (py_getitem post_data (utf8 "hashtags")) ;;
                 ret (negb (truthy hashtags))) ;;
  post_data <- (if reset : bool
                then lift (py_setitem post_data (utf8 "hashtags") (PyList []))
                else ret post_data) ;;
  has_cta <- lift (py_contains post_data (utf8 "call_to_action")) ;;
  if negb has_cta
  then lift (py_setitem post_data (utf8 "call_to_action") (PyStr []))
  else ret post_data.

Definition generate_post_text (niche goal format_type : option pystr)
    (idea : pyval) : M pyval :=
  try_except
    (logged_title <- lift (py_get idea (utf8 "title") (PyStr (utf8 "N/A"))) ;;
     idea_title <- lift (py_getitem idea (utf8 "title")) ;;
     idea_description <- lift (py_getitem idea (utf8 "description")) ;;
     key_elements <- lift (py_getitem idea (utf8 "key_elements")) ;;
     prompt <- lift (build_post_prompt niche goal format_type
                       idea_title idea_description key_elements) ;;
     let messages := build_messages (utf8 "creator") prompt in
     response <- request_post messages ;;
     result <- match json_loads response with
               | Some r => ret r
               | None => raise GenerationError
                           (utf8 "Ошибка парсинга ответа при генерации поста")
               end ;;
     has_post <- lift (py_contains result (utf8 "post")) ;;
     if negb has_post then
       raise GenerationError (utf8 "Отсутствует поле 'post' в ответе")
     else
       post_data <- lift (py_getitem result (utf8 "post")) ;;
       require_fields GenerationError
         (fun field => utf8 "Отсутствует поле '" ++ field ++ utf8 "' в данных поста")
         [utf8 "title"; utf8 "content"] post_data ;;;
       post_data <- default_optional post_data ;;
       content <- lift (py_getitem post_data (utf8 "content")) ;;
       logged_length <- lift (py_len content) ;;
       ret post_data)
    (fun e =>
       if issubclass (exc_type e) GenerationError then reraise e
       else raise GenerationError
              (utf8 "Не удалось сгенерировать текст поста: " ++ exc_str e)).

End Service.
End PostGenerator.
Export PostGenerator.

(* ===================================================================== *)
(** ** bot/handlers/conversation.py *)
(* ===================================================================== *)

Module Conversation.
Section Handlers.
Context `{Runtime} `{Prompts} `{ApiClient}.
Variable settings : Settings.

Definition nl : pystr := [10%N].
Definition dq : pystr := [34%N].

(** bot/states.py, [STATE_QUESTIONS] and [get_state_question]. *)
Definition get_state_question (state : pystr) : pystr :=
  if str_eqb state (utf8 "COLLECTING_NICHE") then
    utf8 "Какая у тебя ниша или тематика контента?"
  else if str_eqb state (utf8 "COLLECTING_GOAL") then
    utf8 "Какая главная цель твоего контента?"
  else if str_eqb state (utf8 "COLLECTING_FORMAT") then
    utf8 "В каком формате ты хочешь создать контент?"
  else [].

Definition niche_prompt (user_text : pystr) : pystr :=
  utf8 "Переформулируй текст пользователя в грамотную форму для описания ниши/темы." ++ nl
    ++ nl
    ++ utf8 "Пользователь написал: " ++ dq ++ user_text ++ dq ++ nl
    ++ nl
    ++ utf8 "Правила:" ++ nl
    ++ utf8 "- Если написано как действие (" ++ dq ++ utf8 "я хлеб пеку" ++ dq ++ utf8 ", " ++ dq ++ utf8 "делаю мебель" ++ dq ++ utf8 "), преобразуй в существительное (" ++ dq ++ utf8 "Выпечка хлеба" ++ dq ++ utf8 ", " ++ dq ++ utf8 "Изготовление мебели" ++ dq ++ utf8 ")" ++ nl
    ++ utf8 "- Если написано некорректно (" ++ dq ++ utf8 "собираю машины" ++ dq ++ utf8 "), сделай грамотно (" ++ dq ++ utf8 "Сборка автомобилей" ++ dq ++ utf8 ")" ++ nl
    ++ utf8 "- Сохрани смысл, но сделай формулировку профессиональной" ++ nl
    ++ utf8 "- Максимум 3-5 слов" ++ nl
    ++ utf8 "- Только суть, без лишних слов" ++ nl
    ++ nl
    ++ utf8 "Ответь ТОЛЬКО переформулированным текстом, без объяснений.".

Definition goal_prompt (user_text : pystr) : pystr :=
  utf8 "Переформулируй цель пользователя в грамотную форму." ++ nl
    ++ nl
    ++ utf8 "Пользователь написал: " ++ dq ++ user_text ++ dq ++ nl
    ++ nl
    ++ utf8 "Правила:" ++ nl
    ++ utf8 "- Преобразуй в инфинитив если нужно (" ++ dq ++ utf8 "хочу клиентов" ++ dq ++ utf8 " → " ++ dq ++ utf8 "Привлечение клиентов" ++ dq ++ utf8 ")" ++ nl
    ++ utf8 "- Сделай формулировку четкой и профессиональной  " ++ nl
    ++ utf8 "- Сохрани смысл" ++ nl
    ++ utf8 "- Максимум 5-7 слов" ++ nl
    ++ nl
    ++ utf8 "Ответь ТОЛЬКО переформулированным текстом, без объяснений.".

Definition format_prompt (user_text : pystr) : pystr :=
  utf8 "Переформулируй формат контента в грамотную форму." ++ nl
    ++ nl
    ++ utf8 "Пользователь написал: " ++ dq ++ user_text ++ dq ++ nl
    ++ nl
    ++ utf8 "Правила:" ++ nl
    ++ utf8 "- Сделай формулировку четкой (" ++ dq ++ utf8 "пост инсте" ++ dq ++ utf8 " → " ++ dq ++ utf8 "Пост для Instagram" ++ dq ++ utf8 ")" ++ nl
    ++ utf8 "- Сохрани смысл" ++ nl
    ++ utf8 "- Максимум 5-7 слов" ++ nl
    ++ nl
    ++ utf8 "Ответь ТОЛЬКО переформулированным текстом, без объяснений.".

Definition reformulate_user_input (user_text context : pystr) : M pystr :=
  try_except
    (let ask (prompt : pystr) : M pystr :=
       response <- client_chat_completion
                     (mk_args (PyList [PyDict [(utf8 "role", PyStr (utf8 "user"));
                                               (utf8 "content", PyStr prompt)]])
                              (utf8 "gpt-4o-mini") 0.3%float (Some 50) false ∅) ;;
       let reformulated :=
         strip_with (fun c => (c =? 39)%N)
           (strip_with (fun c => (c =? 34)%N) (strip_with str_isspace response)) in
       ret reformulated in
     if str_eqb context (utf8 "niche") then ask (niche_prompt user_text)
     else if str_eqb context (utf8 "goal") then ask (goal_prompt user_text)
     else if str_eqb context (utf8 "format") then ask (format_prompt user_text)
     else ret user_text)
    (fun e => ret user_text).

Definition respect_warning : pystr :=
  utf8 "Пожалуйста, давай общаться уважительно 🙏" ++ nl2
  ++ utf8 "Я здесь, чтобы помочь с созданием контента." ++ nl2
  ++ utf8 "Если у тебя есть вопросы или проблемы, давай обсудим их конструктивно.".

Definition offensive_farewell : pystr :=
  utf8 "Мне жаль, но я не могу продолжать общение в таком ключе." ++ nl2
  ++ utf8 "Если захочешь работать над контентом, буду рад помочь." ++ nl2
  ++ utf8 "До встречи! 👋".

(** bot/utils.py, [send_with_typing] without a [typing_duration]: the delay
    is computed from [len(text)], then the text is sent. *)
Definition send_with_typing (text : pyval) : M unit :=
  text_length <- lift (py_len text) ;;
  answer text.

Definition check_and_moderate (message_text current_step bot_question : pystr)
  : M bool :=
  let user_response := message_text in
  data <- get_data ;;
  let off_topic_count := default 0 (off_topic_count data) in
  if detect_offensive_content user_response then
    let off_topic_count := off_topic_count + 1 in
    update_data (set_off_topic_count off_topic_count) ;;;
    if off_topic_count =? 1 then
      answer (PyStr respect_warning) ;;;
      ret false
    else
      answer (PyStr offensive_farewell) ;;;
      clear ;;;
      ret false
  else
    try_except
      (result <- check_relevance settings current_step bot_question user_response ;;
       is_relevant <- lift (py_getitem result (utf8 "is_relevant")) ;;
       if truthy is_relevant then
         update_data (set_off_topic_count 0) ;;;
         ret true
       else
         let off_topic_count := off_topic_count + 1 in
         update_data (set_off_topic_count off_topic_count) ;;;
         if should_end_conversation settings off_topic_count then
           answer (get_redirection_message off_topic_count bot_question PyNone) ;;;
           clear ;;;
           ret false
         else
           suggestion <- lift (py_get result (utf8 "suggestion") PyNone) ;;
           let redirect_msg :=
             get_redirection_message off_topic_count bot_question suggestion in
           send_with_typing redirect_msg ;;;
           ret false)
      (fun e =>
         if issubclass (exc_type e) ModerationError then ret true
         else reraise e).

Definition niche_response (niche_formatted : pystr) : pystr :=
  utf8 "Отлично! **" ++ niche_formatted ++ utf8 "** - интересная ниша 💡" ++ nl
    ++ nl
    ++ utf8 "Теперь скажи, **какая главная цель твоего контента?**" ++ nl
    ++ nl
    ++ utf8 "Например:" ++ nl
    ++ utf8 "• Привлечь новых подписчиков" ++ nl
    ++ utf8 "• Продать продукт или услугу" ++ nl
    ++ utf8 "• Обучить аудиторию" ++ nl
    ++ utf8 "• Повысить вовлеченность" ++ nl
    ++ utf8 "• Что-то другое?".

Definition goal_response (goal_formatted : pystr) : pystr :=
  utf8 "Понял! **" ++ goal_formatted ++ utf8 "** 🎯" ++ nl
    ++ nl
    ++ utf8 "Последний вопрос: **в каком формате ты хочешь создать контент?**" ++ nl
    ++ nl
    ++ utf8 "Например:" ++ nl
    ++ utf8 "• Пост для Instagram/VK/Facebook" ++ nl
    ++ utf8 "• Статья для блога или Telegram-канала" ++ nl
    ++ utf8 "• Сценарий для видео/Reels/Shorts" ++ nl
    ++ utf8 "• Email-рассылка" ++ nl
    ++ utf8 "• Что-то другое?".

Definition handle_niche (message_text : pystr) : M unit :=
  relevant <- check_and_moderate message_text (utf8 "COLLECTING_NICHE")
                (get_state_question (utf8 "COLLECTING_NICHE")) ;;
  if negb relevant then ret tt
  else
    let niche_original := strip_with str_isspace message_text in
    niche_formatted <- reformulate_user_input niche_original (utf8 "niche") ;;
    update_data (set_niche niche_original) ;;;
    send_with_typing (PyStr (niche_response niche_formatted)) ;;;
    set_state COLLECTING_GOAL.

Definition handle_goal (message_text : pystr) : M unit :=
  relevant <- check_and_moderate message_text (utf8 "COLLECTING_GOAL")
                (get_state_question (utf8 "COLLECTING_GOAL")) ;;
  if negb relevant then ret tt
  else
    let goal_original := strip_with str_isspace message_text in
    goal_formatted <- reformulate_user_input goal_original (utf8 "goal") ;;
    update_data (set_goal goal_original) ;;;
    send_with_typing (PyStr (goal_response goal_formatted)) ;;;
    set_state COLLECTING_FORMAT.

Definition with_image_keywords : list pystr :=
  [utf8 "пост"; utf8 "статья"; utf8 "публикация"; utf8 "заметка"; utf8 "блог";
   utf8 "instagram"; utf8 "facebook"; utf8 "vk"; utf8 "telegram"; utf8 "соцсет"].

Definition without_image_keywords : list pystr :=
  [utf8 "сценарий"; utf8 "скрипт"; utf8 "инструкция"; utf8 "план"; utf8 "текст";
   utf8 "email"; utf8 "письмо"; utf8 "рассылка"; utf8 "описание"].

(** [for keyword in keywords: if keyword in text: return result], then
    the code after the loop. *)
Fixpoint return_if_any (text : pystr) (keywords : list pystr) (result : bool)
    (otherwise : bool) : bool :=
  match keywords with
  | [] => otherwise
  | keyword :: rest =>
      if str_contains text keyword then result
      else return_if_any text rest result otherwise
  end.

Definition should_offer_image (format_type : pystr) : bool :=
  let format_lower := str_lower format_type in
  return_if_any format_lower without_image_keywords false
    (return_if_any format_lower with_image_keywords true true).

End Handlers.
End Conversation.
Export Conversation.

(* ===================================================================== *)
(** ** Scenarios: a concrete runtime, prompts and remote *)
(* ===================================================================== *)

Module Scenario.

(** [str.isspace] on Basic Latin and Latin-1. *)
Definition isspace_table (c : N) : bool :=
  ((9 <=? c) && (c <=? 13) || (28 <=? c) && (c <=? 32)
   || (c =? 133) || (c =? 160))%N.

Definition quote : pystr := [34%N].

(** The JSON text of a value, for the replies of the scenario remote
    (floats do not occur in the scenarios). *)
Fixpoint json_text (v : pyval) : pystr :=
  match v with
  | PyNone => utf8 "null"
  | PyBool true => utf8 "true"
  | PyBool false => utf8 "false"
  | PyInt n => str_of_Z n
  | PyFloat _ => utf8 "0.5"
  | PyStr s => quote ++ s ++ quote
  | PyList l =>
      utf8 "[" ++
      (fix items (l : list pyval) : pystr :=
         match l with
         | [] => []
         | [x] => json_text x
         | x :: rest => json_text x ++ utf8 ", " ++ items rest
         end) l ++ utf8 "]"
  | PyDict d =>
      utf8 "{" ++
      (fix items (d : list (pystr * pyval)) : pystr :=
         match d with
         | [] => []
         | [(k, x)] => quote ++ k ++ quote ++ utf8 ": " ++ json_text x
         | (k, x) :: rest =>
             quote ++ k ++ quote ++ utf8 ": " ++ json_text x ++ utf8 ", "
               ++ items rest
         end) d ++ utf8 "}"
  end.

(** [json.loads] of the scenarios: it parses the texts of the values in
    [table] and rejects every other text. *)
Fixpoint loads_from (table : list pyval) (s : pystr) : option pyval :=
  match table with
  | [] => None
  | v :: rest => if str_eqb (json_text v) s then Some v else loads_from rest s
  end.

Definition scenario_runtime (table : list pyval) : Runtime :=
  {| str_lower := lower_table;
     str_isspace := isspace_table;
     json_loads := loads_from table;
     interp_error_str := fun _ about => about |}.

Definition lines (parts : list pystr) : pystr :=
  flat_map (fun part => part ++ [10%N]) parts.

Definition scenario_prompts : Prompts :=
  {| build_moderation_prompt := fun step question text =>
       Ok (lines [step; question; text]);
     build_ideas_prompt := fun niche goal format =>
       Ok (lines [default [] niche; default [] goal; default [] format]);
     build_post_prompt := fun niche goal format title description elements =>
       Ok (lines [default [] niche; default [] goal; default [] format;
                  json_text title; json_text description; json_text elements]) |}.

(** A reply with one choice, no refusal and the given text. *)
Definition reply (finish : pystr) (text : pystr) : raw_outcome :=
  returns (mk_completion
             [mk_choice (Some finish)
                        (mk_message (utf8 "assistant") None (Some text))]).

(** The session as [cmd_start] leaves it. *)
Definition started_data : fsm_data :=
  mk_data (Some 0) (Some 1) (Some (utf8 "user"))
          None None None None None None None None.

Definition started (remote : nat -> gmap string pyval -> raw_outcome) : world :=
  mk_world remote [] (Some COLLECTING_NICHE) started_data [].

Definition verdict (is_relevant : bool) : pyval :=
  PyDict [(utf8 "is_relevant", PyBool is_relevant);
          (utf8 "reason", PyStr (utf8 "checked"));
          (utf8 "suggestion", PyNone)].

Definition verdict_without_suggestion : pyval :=
  PyDict [(utf8 "is_relevant", PyBool true);
          (utf8 "reason", PyStr (utf8 "checked"))].

Definition idea (id : pyval) (title : string) : pyval :=
  PyDict [(utf8 "id", id);
          (utf8 "title", PyStr (utf8 title));
          (utf8 "description", PyStr (utf8 "text"));
          (utf8 "key_elements", PyList [PyStr (utf8 "photo")])].

Definition ideas_reply (items : list pyval) : pyval :=
  PyDict [(utf8 "ideas", PyList items)].

End Scenario.
Export Scenario.

(* ===================================================================== *)
(** ** Notions the statements use *)
(* ===================================================================== *)

Module Notions.

(** [m] relates every world to the world it leaves, by [R]. *)
Definition preserves {A} (R : world -> world -> Prop) (m : M A) : Prop :=
  forall w, R w (snd (m w)).

(** Only the list of requests grows: the remote, the FSM context and the
    outbox stay. *)
Definition same_session (w w' : world) : Prop :=
  remote w' = remote w /\ fsm_state w' = fsm_state w /\ data w' = data w
  /\ outbox w' = outbox w.

(** The world after one more request. *)
Definition after_request (params : gmap string pyval) (w : world) : world :=
  mk_world (remote w) (sent w ++ [params]) (fsm_state w) (data w) (outbox w).

(** The counter as [data.get("off_topic_count", 0)] reads it. *)
Definition count_of (w : world) : Z := default 0 (off_topic_count (data w)).

(** The model a request names. *)
Definition request_model (params : gmap string pyval) : option pyval :=
  params !! "model"%string.

(** A model name of the next-generation or reasoning families: lower-cased,
    it starts with one of the five prefixes. *)
Definition next_generation `{Runtime} (model : pystr) : Prop :=
  Exists (fun prefix => startswith (str_lower model) prefix = true)
    [utf8 "gpt-5"; utf8 "o1-preview"; utf8 "o1-mini"; utf8 "o3-mini"; utf8 "o3"].

(** A response with no choice, a refusal, or no text. *)
Definition generation_failure (r : ChatCompletion) : bool :=
  match choices r with
  | [] => true
  | choice :: _ =>
      negb (falsy_str (refusal (message choice)))
      || falsy_str (content (message choice))
  end.

(** A keyword of [keywords] occurs in the lower-cased format. *)
Definition matches `{Runtime} (keywords : list pystr) (format : pystr) : Prop :=
  Exists (fun keyword => str_contains (str_lower format) keyword = true) keywords.

Definition has_key (d : list (pystr * pyval)) (k : pystr) : bool :=
  match dict_lookup d k with Some _ => true | None => false end.

(** An idea item with the four required fields and a list of key
    elements. *)
Definition well_formed_idea (v : pyval) : bool :=
  match v with
  | PyDict d =>
      forallb (has_key d) idea_fields
      && match dict_lookup d (utf8 "key_elements") with
         | Some (PyList _) => true
         | _ => false
         end
  | _ => false
  end.

Definition idea_id (v : pyval) : option pyval :=
  match v with
  | PyDict d => dict_lookup d (utf8 "id")
  | _ => None
  end.

Definition integer_id (v : pyval) : bool :=
  match idea_id v with Some id => isinstance_int id | None => false end.

(** The item at 1-based position [i] with its id replaced by [i] when the
    id is not an integer. *)
Definition renumbered (i : nat) (v : pyval) : pyval :=
  match v with
  | PyDict d =>
      if integer_id v then v
      else PyDict (dict_set d (utf8 "id") (PyInt (Z.of_nat i)))
  | _ => v
  end.

(** The items renumbered by position, the first at position [i]. *)
Fixpoint renumber_from (i : nat) (items : list pyval) : list pyval :=
  match items with
  | [] => []
  | item :: rest => renumbered i item :: renumber_from (S i) rest
  end.

End Notions.
Export Notions.

(* ===================================================================== *)
(** ** Pure steps that may raise *)
(* ===================================================================== *)

Module Pure.

(** Sequencing of [res], for the functions that touch no state. *)
Definition rbind {A B} (r : res A) (k : A -> res B) : res B :=
  match r with
  | Ok a => k a
  | Raise e => Raise e
  end.

Notation "x <~ c1 ;; c2" := (rbind c1 (fun x => c2))
  (at level 100, c1 at next level, right associativity) : py_scope.

End Pure.
Export Pure.

(** [str(v)] of a value that is not a string, as an f-string and
    [str.join] format it: the interpreter's, a parameter. *)
Class Formatting := { format_value : pyval -> pystr }.

Module PyText.
Section Text.
Context `{Runtime} `{Formatting}.

(** [str(v)], [f"{v}"] *)
Definition py_str (v : pyval) : pystr :=
  match v with
  | PyStr s => s
  | _ => format_value v
  end.

(** [for x in v]: the elements of a list, the characters of a string, the
    keys of a dict; other values are not iterable. *)
Definition py_iter (v : pyval) : res (list pyval) :=
  match v with
  | PyList l => Ok l
  | PyStr s => Ok (map (fun c => PyStr [c]) s)
  | PyDict d => Ok (map (fun kv => PyStr (fst kv)) d)
  | _ => interp_raise TypeError (utf8 "iter")
  end.

(** [sep.join(parts)] *)
Fixpoint str_join (sep : pystr) (parts : list pystr) : pystr :=
  match parts with
  | [] => []
  | [part] => part
  | part :: rest => part ++ sep ++ str_join sep rest
  end.

(** [s.replace(old, new)]: the occurrences of [old] are found from the
    left and do not overlap; [skip] counts the characters of an occurrence
    still to pass. An empty [old] matches before every character and at
    the end. *)
Fixpoint replace_go (old new : pystr) (skip : nat) (s : pystr) : pystr :=
  match s with
  | [] => []
  | c :: rest =>
      match skip with
      | S k => replace_go old new k rest
      | O =>
          if startswith s old
          then new ++ replace_go old new (length old - 1) rest
          else c :: replace_go old new 0 rest
      end
  end.

Definition str_replace (old new : pystr) (s : pystr) : pystr :=
  match old with
  | [] => new ++ flat_map (fun c => c :: new) s
  | _ => replace_go old new 0 s
  end.

(** [s[:stop]]: a negative [stop] counts from the end; the bounds are
    clipped to the string. *)
Definition slice_to {A} (s : list A) (stop : Z) : list A :=
  let n := Z.of_nat (length s) in
  let stop := if stop <? 0 then Z.max (stop + n) 0 else Z.min stop n in
  take (Z.to_nat stop) s.

(** [range(a, b)] *)
Definition py_range (a b : Z) : list Z :=
  map (fun k => a + Z.of_nat k) (seq 0 (Z.to_nat (b - a))).

End Text.
End PyText.
Export PyText.

(* ===================================================================== *)
(** ** api/proxyapi_client.py: [validate_connection] *)
(* ===================================================================== *)

Module Connection.
Section Client.
Context `{Runtime}.

(** The request of the check: one user message, the default model and
    temperature of [chat_completion], a limit of 10 tokens. *)
Definition probe : chat_args :=
  mk_args (PyList [PyDict [(utf8 "role", PyStr (utf8 "user"));
                           (utf8 "content", PyStr (utf8 "Hi"))]])
          (utf8 "gpt-4o-mini") 0.7%float (Some 10) false ∅.

Definition validate_connection : M bool :=
  try_except
    (chat_completion probe ;;;
     ret true)
    (fun e => ret false).

End Client.
End Connection.
Export Connection.

(* ===================================================================== *)
(** ** services/idea_generator.py: [validate_idea] *)
(* ===================================================================== *)

Module IdeaValidation.
Section Validation.
Context `{Runtime}.

(** [for field in required_fields: if field not in idea: return False];
    [Ok true] when the loop ends without returning. *)
Fixpoint fields_present (fields : list pystr) (idea : pyval) : res bool :=
  match fields with
  | [] => Ok true
  | field :: rest =>
      present <~ py_contains idea field ;;
      if negb present then Ok false else fields_present rest idea
  end.

Definition validate_idea (idea : pyval) : res bool :=
  let required_fields :=
    [utf8 "id"; utf8 "title"; utf8 "description"; utf8 "key_elements"] in
  complete <~ fields_present required_fields idea ;;
  if negb complete then Ok false
  else
    key_elements <~ py_getitem idea (utf8 "key_elements") ;;
    if negb (isinstance_list key_elements) then Ok false
    else Ok true.

End Validation.
End IdeaValidation.
Export IdeaValidation.

(* ===================================================================== *)
(** ** bot/utils.py *)
(* ===================================================================== *)

Module Utils.
Section Functions.
Context `{Runtime} `{Formatting}.

(** The characters [escape_markdown] escapes, in the order of the loop. *)
Definition special_chars : list N :=
  flat_map utf8 ["_"; "*"; "["; "]"; "("; ")"; "~"; "`"; ">"; "#"; "+"; "-";
                 "="; "|"; "{"; "}"; "."; "!"]%string.

Definition backslash : N := 92%N.

(** [for char in special_chars: text = text.replace(char, f'\\{char}')] *)
Definition escape_markdown (text : pystr) : pystr :=
  fold_left (fun text char => str_replace [char] [backslash; char] text)
            special_chars text.

(** [truncate_text(text, max_length=4000, suffix="...")] *)
Definition truncate_text (text : pystr) (max_length : Z) (suffix : pystr)
  : pystr :=
  if Z.of_nat (length text) <=? max_length then text
  else slice_to text (max_length - Z.of_nat (length suffix)) ++ suffix.

Definition default_max_length : Z := 4000.
Definition default_suffix : pystr := utf8 "...".

(** [any(f"#{tag}" in content for tag in hashtags)] *)
Fixpoint any_hashtag_in (content : pyval) (tags : list pyval) : res bool :=
  match tags with
  | [] => Ok false
  | tag :: rest =>
      found <~ py_contains content (utf8 "#" ++ py_str tag) ;;
      if found then Ok true else any_hashtag_in content rest
  end.

Definition format_post_with_hashtags (post_data : pyval) : res pyval :=
  content <~ py_get post_data (utf8 "content") (PyStr []) ;;
  hashtags <~ py_get post_data (utf8 "hashtags") (PyList []) ;;
  if truthy hashtags then
    tags <~ py_iter hashtags ;;
    found <~ any_hashtag_in content tags ;;
    if negb found then
      let hashtag_string :=
        str_join (utf8 " ") (map (fun tag => utf8 "#" ++ py_str tag) tags) in
      Ok (PyStr (py_str content ++ nl2 ++ hashtag_string))
    else Ok content
  else Ok content.

End Functions.
End Utils.
Export Utils.

(* ===================================================================== *)
(** ** bot/keyboards.py *)
(* ===================================================================== *)

Module Keyboards.

Record InlineKeyboardButton := mk_button {
  button_text : pystr;
  callback_data : pystr
}.

Definition idea_button (i : Z) : InlineKeyboardButton :=
  mk_button (utf8 "▫️ Идея " ++ str_of_Z i) (utf8 "idea_" ++ str_of_Z i).

Definition regenerate_button : InlineKeyboardButton :=
  mk_button (utf8 "🔄 Другие идеи") (utf8 "regenerate_ideas").

(** The rows of the inline keyboard. *)
Definition get_ideas_keyboard (num_ideas : Z) : list (list InlineKeyboardButton) :=
  let row1 := map idea_button (py_range 1 (Z.min 4 (num_ideas + 1))) in
  let row2 := map idea_button (py_range 4 (num_ideas + 1)) in
  let row3 := [regenerate_button] in
  let buttons := [] in
  let buttons := match row1 with [] => buttons | _ => buttons ++ [row1] end in
  let buttons := match row2 with [] => buttons | _ => buttons ++ [row2] end in
  buttons ++ [row3].

End Keyboards.
Export Keyboards.

(* ===================================================================== *)
(** ** Further notions the statements use *)
(* ===================================================================== *)

Module Shapes.


(** One character with a backslash before it when it is one of [chars]. *)
Definition escaped (chars : list N) (c : N) : pystr :=
  if existsb (N.eqb c) chars then [backslash; c] else [c].

End Shapes.
Export Shapes.

(* ===================================================================== *)
(** * Properties *)
(* ===================================================================== *)

(** ** Strings and exception classes *)

Section StringFacts.

Lemma any_in_Exists text patterns :
  any_in text patterns = true <->
  Exists (fun p => str_contains text p = true) patterns.
Proof.
  induction patterns as [|p rest IH]; simpl.
  - split; [discriminate | intros E; inversion E].
  - destruct (str_contains text p) eqn:Ep.
    + split; [intros _; left; exact Ep | reflexivity].
    + rewrite IH. split; [intros E; right; exact E |].
      intros E. inversion E as [? ? Hp | ? ? Hr]; subst; [congruence | exact Hr].
Qed.

Lemma starts_with_any_Exists model_lower prefixes :
  starts_with_any model_lower prefixes = true <->
  Exists (fun p => startswith model_lower p = true) prefixes.
Proof.
  induction prefixes as [|p rest IH]; simpl.
  - split; [discriminate | intros E; inversion E].
  - destruct (startswith model_lower p) eqn:Ep.
    + split; [intros _; left; exact Ep | reflexivity].
    + rewrite IH. split; [intros E; right; exact E |].
      intros E. inversion E as [? ? Hp | ? ? Hr]; subst; [congruence | exact Hr].
Qed.

Lemma return_if_any_spec text keywords result otherwise :
  return_if_any text keywords result otherwise =
  if any_in text keywords then result else otherwise.
Proof.
  induction keywords as [|k rest IH]; simpl; [reflexivity|].
  destruct (str_contains text k); [reflexivity | exact IH].
Qed.

Lemma issubclass_ModerationError c :
  issubclass c ModerationError = true -> c = ModerationError.
Proof. destruct c; vm_compute; intros; try discriminate; auto. Qed.

Lemma transport_not_generation c :
  transport_failure c = true -> issubclass c GenerationError = false.
Proof. destruct c; vm_compute; intros; try discriminate; auto. Qed.

End StringFacts.

(** ** The monad: what a computation leaves untouched *)

Section Frames.

Context (R : world -> world -> Prop) `{!PreOrder R}.

Lemma preserves_ret {A} (a : A) : preserves R (ret a).
Proof. intros w. reflexivity. Qed.

Lemma preserves_raise {A} c msg : preserves R (@raise A c msg).
Proof. intros w. reflexivity. Qed.

Lemma preserves_reraise {A} e : preserves R (@reraise A e).
Proof. intros w. reflexivity. Qed.

Lemma preserves_lift {A} (r : res A) : preserves R (lift r).
Proof. intros w. reflexivity. Qed.

Lemma preserves_bind {A B} (m : M A) (k : A -> M B) :
  preserves R m -> (forall a, preserves R (k a)) -> preserves R (bind m k).
Proof.
  intros Hm Hk w. unfold bind. specialize (Hm w).
  destruct (m w) as [[a|e] w1]; simpl in *; [|exact Hm].
  etransitivity; [exact Hm | apply Hk].
Qed.

Lemma preserves_try {A} (m : M A) (h : exn -> M A) :
  preserves R m -> (forall e, preserves R (h e)) -> preserves R (try_except m h).
Proof.
  intros Hm Hh w. unfold try_except. specialize (Hm w).
  destruct (m w) as [[a|e] w1]; simpl in *; [exact Hm|].
  etransitivity; [exact Hm | apply Hh].
Qed.

Lemma bind_unfold {A B} (m : M A) (k : A -> M B) w :
  bind m k w = match m w with
               | (Ok a, w') => k a w'
               | (Raise e, w') => (Raise e, w')
               end.
Proof. reflexivity. Qed.

Lemma bind_lift_ok {A B} (a : A) (k : A -> M B) w :
  bind (lift (Ok a)) k w = k a w.
Proof. reflexivity. Qed.

Lemma bind_lift_raise {A B} (e : exn) (k : A -> M B) w :
  bind (lift (Raise e)) k w = (Raise e, w).
Proof. reflexivity. Qed.

Lemma bind_ret {A B} (a : A) (k : A -> M B) w : bind (ret a) k w = k a w.
Proof. reflexivity. Qed.


Lemma try_unfold {A} (m : M A) (h : exn -> M A) w :
  try_except m h w = match m w with
                     | (Ok a, w') => (Ok a, w')
                     | (Raise e, w') => h e w'
                     end.
Proof. reflexivity. Qed.

End Frames.

Create HintDb frame.

Ltac preserve :=
  repeat first
    [ solve [eauto 2 with frame nocore]
    | match goal with
      | |- PreOrder _ => apply _
      | |- forall _, _ => intros ?
      | |- preserves _ (ret _) => apply preserves_ret
      | |- preserves _ (raise _ _) => apply preserves_raise
      | |- preserves _ (reraise _) => apply preserves_reraise
      | |- preserves _ (lift _) => apply preserves_lift
      | |- preserves _ (bind _ _) => apply preserves_bind
      | |- preserves _ (try_except _ _) => apply preserves_try
      | |- preserves _ (if ?b then _ else _) => destruct b
      | |- preserves _ (match ?x with _ => _ end) => destruct x
      end ].

#[global] Instance same_session_preorder : PreOrder same_session.
Proof.
  split.
  - intros w. repeat split.
  - intros a b c (?&?&?&?) (?&?&?&?). repeat split; congruence.
Qed.

(** ** api/proxyapi_client.py *)

Section ClientFacts.
Context `{Runtime}.

Lemma classify_error_transport e w :
  exists e', classify_error e w = (Raise e', w)
             /\ transport_failure (exc_type e') = true.
Proof.
  unfold classify_error, raise.
  repeat match goal with |- context [if ?b then _ else _] => destruct b end;
    eexists; (split; [reflexivity|reflexivity]).
Qed.

Lemma extract_content_world r w : snd (extract_content r w) = w.
Proof.
  unfold extract_content, raise, ret.
  destruct (choices r) as [|c cs]; [reflexivity|].
  destruct (negb _); [reflexivity|].
  destruct (content _) as [[|? ?]|]; reflexivity.
Qed.

(** Every call sends exactly one request, the parameter dict. *)
Lemma chat_completion_world a w :
  snd (chat_completion a w) = after_request (build_params a) w.
Proof.
  unfold chat_completion, try_except, bind, create.
  fold (after_request (build_params a) w).
  destruct (remote w _ _) as [r|e].
  - pose proof (extract_content_world r (after_request (build_params a) w)) as Hp.
    destruct (extract_content r _) as [[c|e] w1]; simpl in Hp; subst w1;
      [reflexivity|].
    destruct (classify_error_transport e (after_request (build_params a) w))
      as (e' & -> & _).
    reflexivity.
  - destruct (classify_error_transport e (after_request (build_params a) w))
      as (e' & -> & _).
    reflexivity.
Qed.

(** Whatever is raised inside the [try] block leaves [chat_completion] as
    one of the four API error classes. *)
Lemma chat_completion_raises a w e w' :
  chat_completion a w = (Raise e, w') -> transport_failure (exc_type e) = true.
Proof.
  unfold chat_completion, try_except, bind, create.
  destruct (remote w _ _) as [r|e0].
  - destruct (extract_content r _) as [[c|e1] w1]; [intros [=]|].
    destruct (classify_error_transport e1 w1) as (e' & -> & Ht).
    intros [= <- _]. exact Ht.
  - match goal with |- classify_error e0 ?w0 = _ -> _ =>
      destruct (classify_error_transport e0 w0) as (e' & -> & Ht) end.
    intros [= <- _]. exact Ht.
Qed.

Lemma chat_completion_same_session a : preserves same_session (chat_completion a).
Proof. intros w. rewrite chat_completion_world. repeat split. Qed.

End ClientFacts.

Section RequestParameters.
Context `{Runtime}.

Lemma uses_max_completion_tokens_spec model :
  _uses_max_completion_tokens model = true <-> next_generation model.
Proof.
  unfold _uses_max_completion_tokens, next_generation.
  rewrite <- starts_with_any_Exists. fold new_models.
  destruct (starts_with_any _ _); split; congruence.
Qed.

Lemma supports_custom_temperature_spec model :
  _supports_custom_temperature model = false <-> next_generation model.
Proof.
  unfold _supports_custom_temperature, next_generation.
  rewrite <- starts_with_any_Exists. fold fixed_temp_models.
  destruct (starts_with_any _ _); split; congruence.
Qed.

Lemma kwargs_wf_lookup kw k :
  kwargs_wf kw -> In k named_parameters -> kw !! k = None.
Proof.
  unfold kwargs_wf. rewrite List.Forall_forall. intros Hwf Hin. exact (Hwf k Hin).
Qed.

Lemma base_params_lookup (a : chat_args) (k : string) :
  k <> "messages"%string -> k <> "model"%string ->
  (kwargs a ∪ <["messages"%string := messages a]>
                (<["model"%string := PyStr (model a)]> ∅)) !! k = kwargs a !! k.
Proof.
  intros Hm Hmo. rewrite lookup_union.
  rewrite lookup_insert_ne by congruence.
  rewrite lookup_insert_ne by congruence.
  rewrite lookup_empty. destruct (kwargs a !! k); reflexivity.
Qed.

(** C7. A model name whose lower-cased form starts with gpt-5, o1-preview,
    o1-mini, o3-mini or o3 gets a request without a temperature field and
    with its token limit under max_completion_tokens; every other name gets
    the temperature field and the limit under max_tokens. The request
    [chat_completion] sends is [build_params], and the family is a
    predicate of the model name alone. A limit is passed when [max_tokens]
    is given and not zero. *)
Theorem request_parameters_follow_model_family (a : chat_args) (w : world) :
  kwargs_wf (kwargs a) ->
  let request := build_params a in
  sent (snd (chat_completion a w)) = sent w ++ [request]
  /\ (next_generation (model a) ->
      request !! "temperature"%string = None
      /\ request !! "max_tokens"%string = None
      /\ forall n, max_tokens a = Some n -> n <> 0 ->
           request !! "max_completion_tokens"%string = Some (PyInt n))
  /\ (~ next_generation (model a) ->
      request !! "temperature"%string = Some (PyFloat (temperature a))
      /\ request !! "max_completion_tokens"%string
         = kwargs a !! "max_completion_tokens"%string
      /\ forall n, max_tokens a = Some n -> n <> 0 ->
           request !! "max_tokens"%string = Some (PyInt n)).
Proof.
  intros Hwf request.
  assert (Htemp : kwargs a !! "temperature"%string = None)
    by (apply kwargs_wf_lookup; [exact Hwf | simpl; tauto]).
  assert (Htok : kwargs a !! "max_tokens"%string = None)
    by (apply kwargs_wf_lookup; [exact Hwf | simpl; tauto]).
  split; [rewrite chat_completion_world; reflexivity|].
  subst request. unfold build_params.
  pose proof (supports_custom_temperature_spec (model a)) as Hs.
  pose proof (uses_max_completion_tokens_spec (model a)) as Hu.
  destruct (_supports_custom_temperature (model a)) eqn:Es;
    destruct (_uses_max_completion_tokens (model a)) eqn:Eu;
    try (exfalso; destruct Hs as [Hs1 Hs2], Hu as [Hu1 Hu2];
         first [ specialize (Hs2 (Hu1 eq_refl)); discriminate
               | specialize (Hu2 (Hs1 eq_refl)); discriminate ]).
  - (* an earlier model *)
    split; [intros Hn; apply Hs in Hn; discriminate|].
    intros _.
    destruct (max_tokens a) as [n|]; [destruct (negb (n =? 0)) eqn:En|];
      destruct (json_mode a);
      repeat split;
      try (intros m [= <-] Hm; try (apply Z.eqb_neq in Hm; rewrite Hm in En; discriminate));
      try (intros m [=]);
      repeat (rewrite lookup_insert_eq || rewrite lookup_insert_ne by discriminate);
      rewrite ?base_params_lookup by discriminate; auto.
  - (* a next-generation or reasoning model *)
    split; [|intros Hn; exfalso; apply Hn, Hu; reflexivity].
    intros _.
    destruct (max_tokens a) as [n|]; [destruct (negb (n =? 0)) eqn:En|];
      destruct (json_mode a);
      repeat split;
      try (intros m [= <-] Hm; try (apply Z.eqb_neq in Hm; rewrite Hm in En; discriminate));
      try (intros m [=]);
      repeat (rewrite lookup_insert_eq || rewrite lookup_insert_ne by discriminate);
      rewrite ?base_params_lookup by discriminate; auto.
Qed.

Lemma chat_completion_unfold a w :
  chat_completion a w =
  match remote w (length (sent w)) (build_params a) with
  | returns r =>
      match extract_content r (after_request (build_params a) w) with
      | (Ok c, w1) => (Ok c, w1)
      | (Raise e, w1) => classify_error e w1
      end
  | raises e => classify_error e (after_request (build_params a) w)
  end.
Proof.
  unfold chat_completion, try_except, bind, create, after_request.
  destruct (remote w _ _); reflexivity.
Qed.

Lemma extract_content_failure r w :
  generation_failure r = true ->
  exists e, extract_content r w = (Raise e, w) /\ exc_type e = GenerationError.
Proof.
  unfold generation_failure, extract_content, raise.
  destruct (choices r) as [|ch chs]; [intros _; eexists; split; reflexivity|].
  destruct (negb (falsy_str (refusal (message ch))));
    [intros _; eexists; split; reflexivity|].
  simpl. unfold falsy_str.
  destruct (content (message ch)) as [[|c0 cs]|]; intros Hf; try discriminate;
    eexists; split; reflexivity.
Qed.

(** C2, as the code has it: a response with no choice, a refusal or no
    text makes [chat_completion] raise one of the API error classes, never
    [GenerationError]: the [raise GenerationError] statements stand inside
    the [try] block whose last clause, [except Exception], re-raises them as
    [APIError] (or as the rate-limit or authentication error when the text
    matches). *)
Theorem generation_failures_leave_as_api_errors (a : chat_args) (w : world)
    (r : ChatCompletion) :
  remote w (length (sent w)) (build_params a) = returns r ->
  generation_failure r = true ->
  exists e w', chat_completion a w = (Raise e, w')
               /\ transport_failure (exc_type e) = true
               /\ exc_type e <> GenerationError.
Proof.
  intros Hr Hf. rewrite chat_completion_unfold, Hr.
  destruct (extract_content_failure r (after_request (build_params a) w) Hf)
    as (e0 & -> & _).
  destruct (classify_error_transport e0 (after_request (build_params a) w))
    as (e & -> & Ht).
  exists e, (after_request (build_params a) w). split; [reflexivity|].
  split; [exact Ht|]. intros Hg. rewrite Hg in Ht. discriminate.
Qed.

End RequestParameters.

(** Witness of C7: gpt-5-mini, written in capitals, with a limit of 2500
    tokens. *)
Lemma request_parameters_witness :
  let rt := scenario_runtime [] in
  let a := mk_args (PyList []) (utf8 "GPT-5-mini") 0.7%float (Some 2500) true ∅ in
  kwargs_wf (kwargs a)
  /\ next_generation (model a)
  /\ build_params a !! "temperature"%string = None
  /\ build_params a !! "max_completion_tokens"%string = Some (PyInt 2500).
Proof.
  intros rt a.
  assert (Hwf : kwargs_wf (kwargs a)) by (repeat constructor).
  assert (Hng : next_generation (model a)) by (left; vm_compute; reflexivity).
  destruct (@request_parameters_follow_model_family rt a
              (started (fun _ _ => reply (utf8 "stop") (utf8 "ok"))) Hwf)
    as (_ & Hnew & _).
  destruct (Hnew Hng) as (Ht & _ & Hn).
  split; [exact Hwf|]. split; [exact Hng|]. split; [exact Ht|].
  apply Hn; [reflexivity | discriminate].
Defined.

(** Witness of C2: the remote returns a response without choices. *)
Lemma generation_failure_witness :
  let rt := scenario_runtime [] in
  let a := mk_args (PyList []) (utf8 "gpt-4o-mini") 0.7%float None false ∅ in
  let w := started (fun _ _ => returns (mk_completion [])) in
  exists e w', chat_completion a w = (Raise e, w')
               /\ transport_failure (exc_type e) = true
               /\ exc_type e <> GenerationError.
Proof.
  intros rt a w.
  apply (@generation_failures_leave_as_api_errors rt a w (mk_completion []));
    reflexivity.
Defined.

(** C2 at its failing inputs, evaluated: no choices, a refusal, and an empty
    text each leave [chat_completion] as [APIError]. *)
Example generation_failures_evaluated :
  let rt := scenario_runtime [] in
  let a := mk_args (PyList []) (utf8 "gpt-4o-mini") 0.7%float None false ∅ in
  let answer_with (r : ChatCompletion) := started (fun _ _ => returns r) in
  fst (chat_completion a (answer_with (mk_completion [])))
  = Raise (mk_exn APIError (utf8 "Ошибка API: API вернул пустой ответ без choices"))
  /\ fst (chat_completion a (answer_with (mk_completion
            [mk_choice (Some (utf8 "stop"))
               (mk_message (utf8 "assistant") (Some (utf8 "no")) None)])))
     = Raise (mk_exn APIError
                (utf8 "Ошибка API: Модель отказала в генерации контента: no"))
  /\ fst (chat_completion a (answer_with (mk_completion
            [mk_choice (Some (utf8 "length"))
               (mk_message (utf8 "assistant") None (Some []))])))
     = Raise (mk_exn APIError
                (utf8 "Ошибка API: API вернул пустой контент (finish_reason: length)")).
Proof. vm_compute. repeat split. Qed.

Section IllustrationOffer.
Context `{Runtime}.

Lemma should_offer_image_spec format :
  should_offer_image format
  = negb (any_in (str_lower format) without_image_keywords).
Proof.
  unfold should_offer_image. rewrite !return_if_any_spec.
  destruct (any_in _ without_image_keywords); [reflexivity|].
  destruct (any_in _ with_image_keywords); reflexivity.
Qed.

End IllustrationOffer.

(** C8. The offer of an illustration is a function of the format string:
    a no-illustration keyword in the lower-cased format gives false, also
    when a with-illustration keyword occurs too; a with-illustration keyword
    and no no-illustration keyword gives true; no keyword of either list
    gives true. The three formats of the specification, and one that
    matches both lists, evaluated. *)
Theorem illustration_offer_classifier :
  (forall (rt : Runtime) (format : pystr),
      (matches without_image_keywords format ->
       should_offer_image format = false)
      /\ (~ matches without_image_keywords format ->
          matches with_image_keywords format ->
          should_offer_image format = true)
      /\ (~ matches without_image_keywords format ->
          ~ matches with_image_keywords format ->
          should_offer_image format = true))
  /\ @should_offer_image (scenario_runtime []) (utf8 "Пост для Instagram") = true
  /\ @should_offer_image (scenario_runtime []) (utf8 "Сценарий для видео") = false
  /\ @should_offer_image (scenario_runtime []) (utf8 "Подкаст") = true
  /\ @should_offer_image (scenario_runtime []) (utf8 "Текст поста") = false.
Proof.
  split.
  - intros rt format. rewrite should_offer_image_spec. unfold matches.
    rewrite <- !any_in_Exists.
    destruct (any_in (str_lower format) without_image_keywords);
      repeat split; intros; simpl; congruence.
  - vm_compute. repeat split.
Qed.

(** ** services/post_generator.py over the real client *)

Section PostRequests.
Context `{Runtime} `{Prompts}.
Variable settings : Settings.
#[local] Existing Instance proxy_api_client.

Lemma build_params_model (a : chat_args) :
  kwargs a !! "model"%string = None ->
  request_model (build_params a) = Some (PyStr (model a)).
Proof.
  intros Hk. unfold request_model, build_params.
  destruct (_supports_custom_temperature (model a));
    destruct (_uses_max_completion_tokens (model a));
    (destruct (max_tokens a) as [n|]; [destruct (negb (n =? 0))|]);
    destruct (json_mode a);
    repeat (rewrite lookup_insert_ne by discriminate);
    rewrite lookup_union, Hk, lookup_insert_ne by discriminate;
    rewrite lookup_insert_eq; reflexivity.
Qed.

Lemma require_fields_preserves (R : world -> world -> Prop) `{!PreOrder R}
    cls msg fields v :
  preserves R (require_fields cls msg fields v).
Proof.
  induction fields as [|f rest IH]; simpl; preserve.
Qed.

Lemma default_optional_pure post_data : preserves eq (default_optional post_data).
Proof. unfold default_optional. preserve. Qed.

(** With the real client the [except GenerationError] clause of
    [generate_post_text] never runs: [chat_completion] raises API errors
    only. *)
Lemma request_post_is_one_call messages w :
  request_post settings messages w
  = chat_completion
      (mk_args messages (model_final_post settings) (temperature_post settings)
               (Some (max_tokens_post settings)) true ∅) w.
Proof.
  unfold request_post, try_except. simpl.
  destruct (chat_completion _ w) as [[c|e] w1] eqn:E; [reflexivity|].
  apply chat_completion_raises in E. apply transport_not_generation in E.
  rewrite E. reflexivity.
Qed.

Lemma generate_post_text_requests niche goal format idea w :
  let w' := snd (generate_post_text settings niche goal format idea w) in
  w' = w
  \/ exists messages,
       w' = after_request
              (build_params
                 (mk_args messages (model_final_post settings)
                          (temperature_post settings)
                          (Some (max_tokens_post settings)) true ∅)) w.
Proof.
  cbv zeta. unfold generate_post_text, try_except.
  match goal with |- context [bind ?m ?k w] => set (body := bind m k) end.
  assert (Hbody : snd (body w) = w
                  \/ exists messages,
                       snd (body w) = after_request
                         (build_params
                            (mk_args messages (model_final_post settings)
                               (temperature_post settings)
                               (Some (max_tokens_post settings)) true ∅)) w).
  { subst body.
    destruct (py_get idea _ _);
      [rewrite bind_lift_ok | rewrite bind_lift_raise; left; reflexivity].
    destruct (py_getitem idea (utf8 "title"));
      [rewrite bind_lift_ok | rewrite bind_lift_raise; left; reflexivity].
    destruct (py_getitem idea (utf8 "description"));
      [rewrite bind_lift_ok | rewrite bind_lift_raise; left; reflexivity].
    destruct (py_getitem idea (utf8 "key_elements"));
      [rewrite bind_lift_ok | rewrite bind_lift_raise; left; reflexivity].
    destruct (build_post_prompt _ _ _ _ _ _) as [prompt|];
      [rewrite bind_lift_ok | rewrite bind_lift_raise; left; reflexivity].
    right. exists (build_messages (utf8 "creator") prompt).
    rewrite bind_unfold, request_post_is_one_call.
    pose proof (chat_completion_world
                  (mk_args (build_messages (utf8 "creator") prompt)
                     (model_final_post settings) (temperature_post settings)
                     (Some (max_tokens_post settings)) true ∅) w) as Hw.
    destruct (chat_completion _ w) as [[response|e] w1]; simpl in Hw; subst w1;
      [|reflexivity].
    match goal with |- snd (?tail ?w1) = _ =>
      assert (Hp : preserves eq tail) end.
    { pose proof (require_fields_preserves eq).
      pose proof default_optional_pure.
      preserve. }
    symmetry. apply Hp. }
  cbv zeta.
  destruct (body w) as [[post|e] w1]; cbv beta iota; [exact Hbody|].
  destruct (issubclass (exc_type e) GenerationError); exact Hbody.
Qed.

End PostRequests.

Section Fallback.
Context `{Runtime} `{Prompts} `{ApiClient}.
Variable settings : Settings.

(** What the [except GenerationError] clause does for a client that does
    raise [GenerationError] with one of the three texts: a second call, to
    the fallback model, whose outcome is the outcome of the request. *)
Lemma request_post_falls_back messages w e w1 :
  client_chat_completion
    (mk_args messages (model_final_post settings) (temperature_post settings)
             (Some (max_tokens_post settings)) true ∅) w = (Raise e, w1) ->
  issubclass (exc_type e) GenerationError = true ->
  fallback_signature e = true ->
  request_post settings messages w
  = client_chat_completion
      (mk_args messages fallback_model (temperature_post settings)
               (Some (max_tokens_post settings)) true ∅) w1.
Proof.
  intros Hc Hg Hs. unfold request_post, try_except.
  rewrite Hc, Hg, Hs. reflexivity.
Qed.

End Fallback.

(** C1, as the code has it: with the client the bot is built with,
    [generate_post_text] sends at most one chat-completion request, to the
    final-post model, whatever the failure; the fallback request to gpt-4o
    is never sent, because [chat_completion] hands the empty-content, refusal
    and truncation failures on as [APIError], which the
    [except GenerationError] clause does not catch. Evaluated on a reply
    with finish reason length and no text: one request, to gpt-5, and a
    [GenerationError] that wraps the API error. *)
Theorem post_text_sends_no_fallback_request :
  (forall (rt : Runtime) (prompts : Prompts) (settings : Settings)
          (niche goal format : option pystr) (idea : pyval) (w : world),
      let w' := snd (@generate_post_text rt prompts proxy_api_client settings
                       niche goal format idea w) in
      sent w' = sent w
      \/ exists request,
           sent w' = sent w ++ [request]
           /\ request_model request = Some (PyStr (model_final_post settings)))
  /\ (let rt := scenario_runtime [] in
      let truncated :=
        returns (mk_completion
                   [mk_choice (Some (utf8 "length"))
                              (mk_message (utf8 "assistant") None (Some []))]) in
      let outcome :=
        @generate_post_text rt scenario_prompts proxy_api_client default_settings
          (Some (utf8 "Выпечка хлеба")) (Some (utf8 "Привлечение клиентов"))
          (Some (utf8 "Пост для Instagram")) (idea (PyInt 2) "Хлеб на закваске")
          (started (fun _ _ => truncated)) in
      fst outcome
      = Raise (mk_exn GenerationError
                 (utf8 "Не удалось сгенерировать текст поста: Ошибка API: API вернул пустой контент (finish_reason: length)"))
      /\ map request_model (sent (snd outcome)) = [Some (PyStr (utf8 "gpt-5"))]).
Proof.
  split.
  - intros rt prompts settings niche goal format idea w. cbv zeta.
    destruct (generate_post_text_requests settings niche goal format idea w)
      as [-> | (messages & ->)]; [left; reflexivity|].
    right. eexists. split; [reflexivity|].
    apply build_params_model. reflexivity.
  - vm_compute. split; reflexivity.
Qed.

(** ** services/moderation.py *)

Section ModerationFacts.
Context `{Runtime} `{Prompts} `{ApiClient}.
Variable settings : Settings.

Lemma py_contains_dict d k : py_contains (PyDict d) k = Ok (has_key d k).
Proof. reflexivity. Qed.

(** On a dict the loop over the required fields raises for the first
    missing one. *)
Lemma require_fields_dict cls msg fields d w :
  require_fields cls msg fields (PyDict d) w
  = match find (fun f => negb (has_key d f)) fields with
    | Some f => (Raise (mk_exn cls (msg f)), w)
    | None => (Ok tt, w)
    end.
Proof.
  induction fields as [|f rest IH]; [reflexivity|].
  cbn [require_fields find].
  rewrite py_contains_dict, bind_lift_ok.
  destruct (has_key d f); [exact IH | reflexivity].
Qed.

Lemma has_key_getitem d k :
  has_key d k = true -> exists x, py_getitem (PyDict d) k = Ok x.
Proof.
  unfold has_key, py_getitem.
  destruct (dict_lookup d k) as [x|]; [eauto | discriminate].
Qed.

(** [check_relevance] on a reply that parses to a dict. *)
Lemma check_relevance_parsed step q text w prompt response w1 d :
  build_moderation_prompt step q text = Ok prompt ->
  client_chat_completion
    (mk_args (build_messages (utf8 "moderator") prompt)
             (model_text_generation settings) (temperature_moderation settings)
             (Some 200) true ∅) w = (Ok response, w1) ->
  json_loads response = Some (PyDict d) ->
  check_relevance settings step q text w
  = match find (fun f => negb (has_key d f)) required_fields with
    | Some f =>
        (Raise (mk_exn ModerationError
                  (utf8 "Отсутствует поле '" ++ f ++ utf8 "' в ответе модерации")),
         w1)
    | None => (Ok (PyDict d), w1)
    end.
Proof.
  intros Hp Hc Hj. unfold check_relevance.
  rewrite try_unfold, Hp, bind_lift_ok, bind_unfold, Hc. cbv beta iota.
  rewrite Hj, bind_ret, bind_unfold, require_fields_dict.
  destruct (find _ required_fields) as [f|] eqn:F; [reflexivity|].
  unfold required_fields in F. cbn [find] in F.
  destruct (has_key d (utf8 "is_relevant")) eqn:E1; [|discriminate].
  destruct (has_key d (utf8 "reason")) eqn:E2; [|discriminate].
  destruct (has_key_getitem _ _ E1) as (x1 & ->).
  destruct (has_key_getitem _ _ E2) as (x2 & ->).
  reflexivity.
Qed.

(** [check_relevance] raises nothing but [ModerationError]. *)
Lemma check_relevance_raises step q text w e w1 :
  check_relevance settings step q text w = (Raise e, w1) ->
  exc_type e = ModerationError.
Proof.
  unfold check_relevance. rewrite try_unfold.
  match goal with |- context [bind ?m ?k w] => destruct (bind m k w) as [[r|e0] w0] end;
    [discriminate|].
  destruct (issubclass (exc_type e0) ModerationError) eqn:E.
  - intros [= <- _]. apply issubclass_ModerationError, E.
  - intros [= <- _]. reflexivity.
Qed.

End ModerationFacts.

(** ** bot/handlers/conversation.py: [check_and_moderate] *)

(** One step of a run: the monad's operations unfolded, redexes reduced. *)
Ltac run_step :=
  cbv beta iota zeta
      delta [bind lift ret raise reraise try_except get_data update_data
             set_state clear answer send_with_typing fst snd].

Section CheckAndModerate.
Context `{Runtime} `{Prompts} `{ApiClient}.
Variable settings : Settings.

Lemma check_and_moderate_offensive text step q w :
  detect_offensive_content text = true ->
  check_and_moderate settings text step q w
  = if count_of w + 1 =? 1
    then (Ok false,
          mk_world (remote w) (sent w) (fsm_state w)
                   (set_off_topic_count (count_of w + 1) (data w))
                   (outbox w ++ [PyStr respect_warning]))
    else (Ok false,
          mk_world (remote w) (sent w) None empty_data
                   (outbox w ++ [PyStr offensive_farewell])).
Proof.
  intros Hd. unfold check_and_moderate.
  rewrite bind_unfold. unfold get_data. cbv beta iota. rewrite Hd.
  unfold count_of. destruct (_ =? 1); reflexivity.
Qed.

Lemma check_and_moderate_failure text step q w e w1 :
  detect_offensive_content text = false ->
  check_relevance settings step q text w = (Raise e, w1) ->
  check_and_moderate settings text step q w = (Ok true, w1).
Proof.
  intros Hd Hc. unfold check_and_moderate.
  rewrite bind_unfold. unfold get_data. cbv beta iota. rewrite Hd.
  rewrite try_unfold, bind_unfold, Hc. cbv beta iota.
  rewrite (check_relevance_raises _ _ _ _ _ _ _ Hc). reflexivity.
Qed.

Lemma check_and_moderate_relevant text step q w result w1 v :
  detect_offensive_content text = false ->
  check_relevance settings step q text w = (Ok result, w1) ->
  py_getitem result (utf8 "is_relevant") = Ok v ->
  truthy v = true ->
  check_and_moderate settings text step q w
  = (Ok true,
     mk_world (remote w1) (sent w1) (fsm_state w1)
              (set_off_topic_count 0 (data w1)) (outbox w1)).
Proof.
  intros Hd Hc Hg Ht. unfold check_and_moderate.
  rewrite bind_unfold. unfold get_data. cbv beta iota. rewrite Hd.
  rewrite try_unfold, bind_unfold, Hc. cbv beta iota.
  rewrite Hg, bind_lift_ok, Ht. reflexivity.
Qed.

Lemma check_and_moderate_ends text step q w result w1 v :
  detect_offensive_content text = false ->
  check_relevance settings step q text w = (Ok result, w1) ->
  py_getitem result (utf8 "is_relevant") = Ok v ->
  truthy v = false ->
  should_end_conversation settings (count_of w + 1) = true ->
  check_and_moderate settings text step q w
  = (Ok false,
     mk_world (remote w1) (sent w1) None empty_data
              (outbox w1 ++ [get_redirection_message (count_of w + 1) q PyNone])).
Proof.
  intros Hd Hc Hg Ht He. unfold check_and_moderate.
  rewrite bind_unfold. unfold get_data. cbv beta iota. rewrite Hd.
  rewrite try_unfold, bind_unfold, Hc. cbv beta iota.
  rewrite Hg, bind_lift_ok, Ht. cbv beta iota.
  unfold count_of in He. rewrite bind_unfold. unfold update_data at 1.
  cbv beta iota. rewrite He. reflexivity.
Qed.

Lemma check_and_moderate_redirects text step q w result w1 v :
  detect_offensive_content text = false ->
  check_relevance settings step q text w = (Ok result, w1) ->
  py_getitem result (utf8 "is_relevant") = Ok v ->
  truthy v = false ->
  should_end_conversation settings (count_of w + 1) = false ->
  let w' := snd (check_and_moderate settings text step q w) in
  data w' = set_off_topic_count (count_of w + 1) (data w1)
  /\ fsm_state w' = fsm_state w1
  /\ sent w' = sent w1.
Proof.
  intros Hd Hc Hg Ht He. unfold count_of in *. unfold check_and_moderate.
  run_step. rewrite Hd. run_step. rewrite Hc. run_step. rewrite Hg. run_step.
  rewrite Ht. run_step. rewrite He. run_step.
  destruct (py_get result (utf8 "suggestion") PyNone) as [s|e]; run_step.
  - destruct (py_len _) as [len|e]; run_step.
    + repeat split.
    + destruct (issubclass _ _); repeat split.
  - destruct (issubclass _ _); repeat split.
Qed.

End CheckAndModerate.

(** ** The session under the real client *)

Section Session.
Context `{Runtime} `{Prompts}.
Variable settings : Settings.
#[local] Existing Instance proxy_api_client.

Lemma client_same_session a :
  preserves same_session (client_chat_completion a).
Proof. exact (chat_completion_same_session a). Qed.

Lemma check_relevance_same_session step q text :
  preserves same_session (check_relevance settings step q text).
Proof.
  unfold check_relevance.
  pose proof client_same_session.
  pose proof (require_fields_preserves same_session).
  preserve.
Qed.

(** [reformulate_user_input] swallows every error, and touches neither the
    FSM context nor the outbox. *)
Lemma reformulate_user_input_total user_text context w :
  exists x w', reformulate_user_input user_text context w = (Ok x, w')
               /\ same_session w w'.
Proof.
  assert (Hp : preserves same_session (reformulate_user_input user_text context)).
  { unfold reformulate_user_input. pose proof client_same_session. preserve. }
  specialize (Hp w). revert Hp.
  unfold reformulate_user_input. rewrite try_unfold.
  match goal with |- context [match ?m with _ => _ end] =>
    destruct m as [[x|e] w'] end; simpl; eauto.
Qed.

(** What a collecting handler does once moderation has let the text
    through. *)
Lemma handle_niche_after text w w1 :
  check_and_moderate settings text (utf8 "COLLECTING_NICHE")
    (get_state_question (utf8 "COLLECTING_NICHE")) w = (Ok true, w1) ->
  let outcome := handle_niche settings text w in
  fst outcome = Ok tt
  /\ fsm_state (snd outcome) = Some COLLECTING_GOAL
  /\ niche (data (snd outcome)) = Some (strip_with str_isspace text)
  /\ off_topic_count (data (snd outcome)) = off_topic_count (data w1)
  /\ exists shown, outbox (snd outcome) = outbox w1 ++ [PyStr (niche_response shown)].
Proof.
  intros Hc. cbv zeta. unfold handle_niche. rewrite bind_unfold, Hc.
  cbv beta iota. cbn [negb]. rewrite bind_unfold.
  destruct (reformulate_user_input_total (strip_with str_isspace text)
              (utf8 "niche") w1) as (x & w2 & -> & (_ & Hs & Hd & Ho)).
  run_step. cbv beta iota delta [py_len]. run_step.
  rewrite Hs, Hd, Ho. repeat split. exists x. reflexivity.
Qed.

Lemma handle_goal_after text w w1 :
  check_and_moderate settings text (utf8 "COLLECTING_GOAL")
    (get_state_question (utf8 "COLLECTING_GOAL")) w = (Ok true, w1) ->
  let outcome := handle_goal settings text w in
  fst outcome = Ok tt
  /\ fsm_state (snd outcome) = Some COLLECTING_FORMAT
  /\ goal (data (snd outcome)) = Some (strip_with str_isspace text)
  /\ off_topic_count (data (snd outcome)) = off_topic_count (data w1)
  /\ exists shown, outbox (snd outcome) = outbox w1 ++ [PyStr (goal_response shown)].
Proof.
  intros Hc. cbv zeta. unfold handle_goal. rewrite bind_unfold, Hc.
  cbv beta iota. cbn [negb]. rewrite bind_unfold.
  destruct (reformulate_user_input_total (strip_with str_isspace text)
              (utf8 "goal") w1) as (x & w2 & -> & (_ & Hs & Hd & Ho)).
  run_step. cbv beta iota delta [py_len]. run_step.
  rewrite Hs, Hd, Ho. repeat split. exists x. reflexivity.
Qed.

(** The handlers change the counter through [check_and_moderate] only. *)
Lemma handle_niche_counter text w :
  off_topic_count (data (snd (handle_niche settings text w)))
  = off_topic_count
      (data (snd (check_and_moderate settings text (utf8 "COLLECTING_NICHE")
                    (get_state_question (utf8 "COLLECTING_NICHE")) w))).
Proof.
  destruct (check_and_moderate settings text (utf8 "COLLECTING_NICHE")
              (get_state_question (utf8 "COLLECTING_NICHE")) w)
    as [[[|]|e] w1] eqn:Hc.
  - destruct (handle_niche_after text w w1 Hc) as (_ & _ & _ & Hn & _). exact Hn.
  - unfold handle_niche. rewrite bind_unfold, Hc. reflexivity.
  - unfold handle_niche. rewrite bind_unfold, Hc. reflexivity.
Qed.

Lemma handle_goal_counter text w :
  off_topic_count (data (snd (handle_goal settings text w)))
  = off_topic_count
      (data (snd (check_and_moderate settings text (utf8 "COLLECTING_GOAL")
                    (get_state_question (utf8 "COLLECTING_GOAL")) w))).
Proof.
  destruct (check_and_moderate settings text (utf8 "COLLECTING_GOAL")
              (get_state_question (utf8 "COLLECTING_GOAL")) w)
    as [[[|]|e] w1] eqn:Hc.
  - destruct (handle_goal_after text w w1 Hc) as (_ & _ & _ & Hn & _). exact Hn.
  - unfold handle_goal. rewrite bind_unfold, Hc. reflexivity.
  - unfold handle_goal. rewrite bind_unfold, Hc. reflexivity.
Qed.

End Session.

(** ** The moderation policy *)

Section ModerationPolicy.
Context `{Runtime} `{Prompts}.
Variable settings : Settings.
#[local] Existing Instance proxy_api_client.

Lemma set_count_not_empty n d : set_off_topic_count n d <> empty_data.
Proof. discriminate. Qed.

(** C3, amended. A profanity-flagged utterance is answered without asking
    the classifier and adds one to the shared counter. When the counter was
    0 the respectful-tone warning is sent and the session stays, with the
    counter at 1, so that a profanity-flagged utterance that follows at once
    clears the session; when the counter was not 0 (an off-topic or a
    profanity strike is standing) the farewell is sent and the session is
    cleared at once. The configured threshold plays no part. *)
Theorem profanity_policy (text step q : pystr) (w : world) :
  detect_offensive_content text = true ->
  let outcome := check_and_moderate settings text step q w in
  let w' := snd outcome in
  fst outcome = Ok false
  /\ sent w' = sent w
  /\ (count_of w = 0 ->
      outbox w' = outbox w ++ [PyStr respect_warning]
      /\ fsm_state w' = fsm_state w
      /\ data w' = set_off_topic_count 1 (data w)
      /\ forall text2 step2 q2,
           detect_offensive_content text2 = true ->
           let w'' := snd (check_and_moderate settings text2 step2 q2 w') in
           cleared w''
           /\ outbox w'' = outbox w' ++ [PyStr offensive_farewell])
  /\ (count_of w <> 0 ->
      outbox w' = outbox w ++ [PyStr offensive_farewell]
      /\ cleared w').
Proof.
  intros Hd. cbv zeta.
  rewrite (check_and_moderate_offensive settings text step q w Hd).
  destruct (count_of w + 1 =? 1) eqn:E.
  - apply Z.eqb_eq in E. assert (E0 : count_of w = 0) by lia.
    split; [reflexivity|]. split; [reflexivity|]. split; [|intros; lia].
    intros _. rewrite E0. split; [reflexivity|]. split; [reflexivity|].
    split; [reflexivity|]. intros text2 step2 q2 Hd2. cbv zeta.
    rewrite (check_and_moderate_offensive settings text2 step2 q2 _ Hd2).
    repeat split.
  - apply Z.eqb_neq in E.
    split; [reflexivity|]. split; [reflexivity|]. split; [intros; lia|].
    intros _. repeat split.
Qed.

(** C4, amended. On a verdict that [check_relevance] returns (the text is
    not profane; the classifier's reply carries the three fields is_relevant,
    reason and suggestion): a relevant verdict sets the counter to 0; an
    off-topic verdict adds exactly one to it, and when the new value exceeds
    [max_off_topic_attempts] the farewell is sent and the session is cleared;
    otherwise the session stays. Nothing else in the verdict path clears the
    session. The step and the question are arbitrary, and the collecting
    handlers change the counter through [check_and_moderate] only, so the
    counter carries across steps. The default maximum is 3.

    A reply of the classifier that parses to an object with is_relevant and
    reason is such a verdict exactly when it has the suggestion key as well.
    Without that key [check_relevance] raises, the caller swallows the error
    and stores nothing: the utterance is let through, an off-topic reply adds
    nothing to the counter and clears nothing, even past the maximum, and a
    relevant reply does not reset it. *)
Theorem off_topic_counter_policy :
  (forall (text step q : pystr) (w : world) (result : pyval) (w1 : world)
          (v : pyval),
      detect_offensive_content text = false ->
      check_relevance settings step q text w = (Ok result, w1) ->
      py_getitem result (utf8 "is_relevant") = Ok v ->
      let outcome := check_and_moderate settings text step q w in
      let w' := snd outcome in
      if truthy v then
        fst outcome = Ok true
        /\ data w' = set_off_topic_count 0 (data w)
        /\ fsm_state w' = fsm_state w /\ outbox w' = outbox w
        /\ ~ cleared w'
      else if count_of w + 1 >? max_off_topic_attempts settings then
        fst outcome = Ok false
        /\ cleared w'
        /\ outbox w' = outbox w
                       ++ [get_redirection_message (count_of w + 1) q PyNone]
      else
        data w' = set_off_topic_count (count_of w + 1) (data w)
        /\ fsm_state w' = fsm_state w
        /\ ~ cleared w')
  /\ (forall (text : pystr) (w : world),
        off_topic_count (data (snd (handle_niche settings text w)))
        = off_topic_count
            (data (snd (check_and_moderate settings text (utf8 "COLLECTING_NICHE")
                          (get_state_question (utf8 "COLLECTING_NICHE")) w)))
        /\ off_topic_count (data (snd (handle_goal settings text w)))
           = off_topic_count
               (data (snd (check_and_moderate settings text (utf8 "COLLECTING_GOAL")
                             (get_state_question (utf8 "COLLECTING_GOAL")) w))))
  /\ max_off_topic_attempts default_settings = 3
  /\ (forall (text step q : pystr) (w : world) (prompt response : pystr)
             (w1 : world) (d : list (pystr * pyval)) (v : pyval),
        detect_offensive_content text = false ->
        build_moderation_prompt step q text = Ok prompt ->
        chat_completion
          (mk_args (build_messages (utf8 "moderator") prompt)
                   (model_text_generation settings)
                   (temperature_moderation settings) (Some 200) true ∅) w
        = (Ok response, w1) ->
        json_loads response = Some (PyDict d) ->
        dict_lookup d (utf8 "is_relevant") = Some v ->
        has_key d (utf8 "reason") = true ->
        let outcome := check_and_moderate settings text step q w in
        let w' := snd outcome in
        if has_key d (utf8 "suggestion") then
          check_relevance settings step q text w = (Ok (PyDict d), w1)
          /\ py_getitem (PyDict d) (utf8 "is_relevant") = Ok v
        else
          fst outcome = Ok true
          /\ data w' = data w /\ count_of w' = count_of w
          /\ fsm_state w' = fsm_state w /\ outbox w' = outbox w).
Proof.
  split; [|split; [|split; [reflexivity|]]].
  - intros text step q w result w1 v Hd Hc Hg. cbv zeta.
    destruct (check_relevance_same_session settings step q text w)
      as (_ & Hs & Hdata & Ho).
    rewrite Hc in Hs, Hdata, Ho. simpl in Hs, Hdata, Ho.
    destruct (truthy v) eqn:Ht.
    + rewrite (check_and_moderate_relevant settings _ _ _ _ _ _ _ Hd Hc Hg Ht).
      simpl. rewrite Hs, Hdata, Ho. repeat split.
      intros [_ Hcl]. simpl in Hcl.
      exact (set_count_not_empty _ _ Hcl).
    + destruct (count_of w + 1 >? max_off_topic_attempts settings) eqn:He.
      * rewrite (check_and_moderate_ends settings _ _ _ _ _ _ _ Hd Hc Hg Ht He).
        simpl. rewrite Ho. repeat split.
      * destruct (check_and_moderate_redirects settings _ _ _ _ _ _ _
                    Hd Hc Hg Ht He) as (Hd' & Hs' & _).
        rewrite Hd', Hs', Hs, Hdata. repeat split.
        intros [_ Hcl]. rewrite Hd' in Hcl.
        exact (set_count_not_empty _ _ Hcl).
  - intros text w. split; [apply handle_niche_counter | apply handle_goal_counter].
  - intros text step q w prompt response w1 d v Hd Hp Hc Hj Hv Hr. cbv zeta.
    pose proof (check_relevance_parsed settings step q text w prompt response
                  w1 d Hp Hc Hj) as Hcr.
    assert (Hi : has_key d (utf8 "is_relevant") = true)
      by (unfold has_key; rewrite Hv; reflexivity).
    unfold required_fields in Hcr. cbn [find] in Hcr. rewrite Hi, Hr in Hcr.
    cbn [negb] in Hcr.
    destruct (has_key d (utf8 "suggestion")); cbn [negb] in Hcr.
    + split; [exact Hcr|]. unfold py_getitem. rewrite Hv. reflexivity.
    + destruct (check_relevance_same_session settings step q text w)
        as (_ & Hs & Hdata & Ho).
      rewrite Hcr in Hs, Hdata, Ho. cbn [snd] in Hs, Hdata, Ho.
      rewrite (check_and_moderate_failure settings _ _ _ _ _ _ Hd Hcr).
      cbn [fst snd]. unfold count_of. rewrite Hdata.
      repeat split; assumption.
Qed.

(** C9. When the relevance check raises (it raises [ModerationError] and
    nothing else) the caller returns [True]: the error is swallowed, the FSM
    state, the data with its counter and the outbox are as before the
    utterance, and the collecting handler goes on to store the text and move
    to the next state, as for a relevant verdict. *)
Theorem moderation_failure_is_fail_open (text step q : pystr) (w : world)
    (e : exn) (w1 : world) :
  detect_offensive_content text = false ->
  check_relevance settings step q text w = (Raise e, w1) ->
  exc_type e = ModerationError
  /\ check_and_moderate settings text step q w = (Ok true, w1)
  /\ fsm_state w1 = fsm_state w /\ data w1 = data w /\ outbox w1 = outbox w
  /\ (step = utf8 "COLLECTING_NICHE" -> q = get_state_question step ->
      let outcome := handle_niche settings text w in
      fst outcome = Ok tt
      /\ fsm_state (snd outcome) = Some COLLECTING_GOAL
      /\ niche (data (snd outcome)) = Some (strip_with str_isspace text)
      /\ off_topic_count (data (snd outcome)) = off_topic_count (data w))
  /\ (step = utf8 "COLLECTING_GOAL" -> q = get_state_question step ->
      let outcome := handle_goal settings text w in
      fst outcome = Ok tt
      /\ fsm_state (snd outcome) = Some COLLECTING_FORMAT
      /\ goal (data (snd outcome)) = Some (strip_with str_isspace text)
      /\ off_topic_count (data (snd outcome)) = off_topic_count (data w)).
Proof.
  intros Hd Hc.
  pose proof (check_and_moderate_failure settings _ _ _ _ _ _ Hd Hc) as Hm.
  destruct (check_relevance_same_session settings step q text w)
    as (_ & Hs & Hdata & Ho).
  rewrite Hc in Hs, Hdata, Ho. simpl in Hs, Hdata, Ho.
  split; [exact (check_relevance_raises settings _ _ _ _ _ _ Hc)|].
  split; [exact Hm|]. split; [exact Hs|]. split; [exact Hdata|].
  split; [exact Ho|]. split.
  - intros -> ->. cbv zeta.
    destruct (handle_niche_after settings text w w1 Hm) as (H1 & H2 & H3 & H4 & _).
    rewrite H4, Hdata. auto.
  - intros -> ->. cbv zeta.
    destruct (handle_goal_after settings text w w1 Hm) as (H1 & H2 & H3 & H4 & _).
    rewrite H4, Hdata. auto.
Qed.

Lemma missing_suggestion_text :
  utf8 "Отсутствует поле '" ++ utf8 "suggestion" ++ utf8 "' в ответе модерации"
  = utf8 "Отсутствует поле 'suggestion' в ответе модерации".
Proof. vm_compute. reflexivity. Qed.

(** C10, amended. A moderation reply that parses to an object with the
    fields is_relevant, reason and suggestion is returned as the verdict
    without raising; the suggestion key is required too (its value may be
    null or empty): without it [check_relevance] raises [ModerationError],
    which the caller swallows, treating the utterance as relevant. *)
Theorem check_relevance_requires_suggestion (step q text : pystr) (w : world)
    (prompt response : pystr) (w1 : world) (d : list (pystr * pyval)) :
  build_moderation_prompt step q text = Ok prompt ->
  chat_completion
    (mk_args (build_messages (utf8 "moderator") prompt)
             (model_text_generation settings) (temperature_moderation settings)
             (Some 200) true ∅) w = (Ok response, w1) ->
  json_loads response = Some (PyDict d) ->
  has_key d (utf8 "is_relevant") = true ->
  has_key d (utf8 "reason") = true ->
  if has_key d (utf8 "suggestion")
  then check_relevance settings step q text w = (Ok (PyDict d), w1)
  else check_relevance settings step q text w
       = (Raise (mk_exn ModerationError
                   (utf8 "Отсутствует поле 'suggestion' в ответе модерации")),
          w1)
       /\ (detect_offensive_content text = false ->
           check_and_moderate settings text step q w = (Ok true, w1)).
Proof.
  intros Hp Hc Hj H1 H2.
  pose proof (check_relevance_parsed settings step q text w prompt response w1 d
                Hp Hc Hj) as Hr.
  unfold required_fields in Hr. cbn [find] in Hr. rewrite H1, H2 in Hr.
  cbn [negb] in Hr.
  destruct (has_key d (utf8 "suggestion")); cbn [negb] in Hr.
  - exact Hr.
  - rewrite missing_suggestion_text in Hr. split; [exact Hr|].
    intros Hd. exact (check_and_moderate_failure settings _ _ _ _ _ _ Hd Hr).
Qed.

End ModerationPolicy.

(** The offensive-content filter is a substring test: the niche of the
    specification's end-to-end scenario, bread baking, holds one of the
    markers inside its second word and is flagged. The scenarios below use
    another niche. *)
Example substring_filter_flags_bread_baking :
  @detect_offensive_content (scenario_runtime []) (utf8 "Выпечка хлеба") = true
  /\ @detect_offensive_content (scenario_runtime []) (utf8 "Фитнес дома") = false.
Proof. vm_compute. split; reflexivity. Qed.

(** Counterexample of C3 as stated. With the default threshold of 3: one
    off-topic utterance, then the first profanity-flagged utterance of the
    session, and the session is cleared; and after a profanity-flagged
    utterance and a relevant one, a second profanity-flagged utterance gets
    the warning again and clears nothing. *)
Lemma first_profanity_can_clear_the_session :
  let question := get_state_question (utf8 "COLLECTING_NICHE") in
  let moderate (verdicts : list pyval) (text : pystr) :=
    @check_and_moderate (scenario_runtime verdicts) scenario_prompts
      (@proxy_api_client (scenario_runtime verdicts)) default_settings
      text (utf8 "COLLECTING_NICHE") question in
  let off_topic := started (fun _ _ => reply (utf8 "stop") (json_text (verdict false))) in
  let relevant := started (fun _ _ => reply (utf8 "stop") (json_text (verdict true))) in
  let w1 := snd (moderate [verdict false] (utf8 "Какая сегодня погода?") off_topic) in
  let w2 := snd (moderate [verdict false] (utf8 "Вот сука") w1) in
  let v1 := snd (moderate [verdict true] (utf8 "Вот сука") relevant) in
  let v2 := snd (moderate [verdict true] (utf8 "Фитнес дома") v1) in
  let v3 := snd (moderate [verdict true] (utf8 "Какая же ты сука") v2) in
  (@detect_offensive_content (scenario_runtime []) (utf8 "Какая сегодня погода?") = false
   /\ @detect_offensive_content (scenario_runtime []) (utf8 "Вот сука") = true
   /\ @detect_offensive_content (scenario_runtime []) (utf8 "Фитнес дома") = false
   /\ fsm_state w1 = Some COLLECTING_NICHE /\ count_of w1 = 1
   /\ fsm_state w2 = None /\ data w2 = empty_data
   /\ outbox w2 = outbox w1 ++ [PyStr offensive_farewell])
  /\ (@detect_offensive_content (scenario_runtime []) (utf8 "Какая же ты сука") = true
      /\ outbox v1 = [PyStr respect_warning] /\ count_of v2 = 0
      /\ fsm_state v3 = Some COLLECTING_NICHE /\ count_of v3 = 1
      /\ outbox v3 = outbox v2 ++ [PyStr respect_warning]).
Proof. vm_compute. repeat split. Qed.

(** Witness of C3: a fresh session and a profane text. *)
Lemma profanity_policy_witness :
  let rt := scenario_runtime [] in
  let w := started (fun _ _ => reply (utf8 "stop") (utf8 "unused")) in
  let outcome :=
    @check_and_moderate rt scenario_prompts (@proxy_api_client rt)
      default_settings (utf8 "Вот сука") (utf8 "COLLECTING_NICHE")
      (get_state_question (utf8 "COLLECTING_NICHE")) w in
  @detect_offensive_content rt (utf8 "Вот сука") = true
  /\ fst outcome = Ok false
  /\ outbox (snd outcome) = [PyStr respect_warning]
  /\ fsm_state (snd outcome) = Some COLLECTING_NICHE.
Proof.
  intros rt w outcome.
  assert (Hd : @detect_offensive_content rt (utf8 "Вот сука") = true)
    by (vm_compute; reflexivity).
  destruct (@profanity_policy rt scenario_prompts default_settings
              (utf8 "Вот сука") (utf8 "COLLECTING_NICHE")
              (get_state_question (utf8 "COLLECTING_NICHE")) w Hd)
    as (Hr & _ & Hfirst & _).
  destruct (Hfirst eq_refl) as (Ho & Hs & _).
  split; [exact Hd|]. split; [exact Hr|]. split; [exact Ho | exact Hs].
Defined.

(** Counterexample of C4 as stated. The classifier's reply has is_relevant
    and reason and no suggestion. In a fresh session an off-topic reply
    leaves the counter at 0 and the utterance is let through; after three
    off-topic verdicts (counter 3, the default maximum) one more off-topic
    reply leaves the counter at 3 and the session in its state; after two
    off-topic verdicts a relevant reply leaves the counter at 2. *)
Lemma verdict_without_suggestion_keeps_the_counter :
  let off_topic_bare :=
    PyDict [(utf8 "is_relevant", PyBool false);
            (utf8 "reason", PyStr (utf8 "checked"))] in
  let rt :=
    scenario_runtime [verdict false; off_topic_bare; verdict_without_suggestion] in
  let moderate :=
    @check_and_moderate rt scenario_prompts (@proxy_api_client rt)
      default_settings (utf8 "Какая сегодня погода?") (utf8 "COLLECTING_NICHE")
      (get_state_question (utf8 "COLLECTING_NICHE")) in
  let answering (full : nat) (last : pyval) :=
    started (fun n _ =>
               reply (utf8 "stop")
                     (json_text (if (n <? full)%nat then verdict false else last))) in
  let a1 := moderate (answering 0%nat off_topic_bare) in
  let b3 := snd (moderate (snd (moderate (snd (moderate
                  (answering 3%nat off_topic_bare)))))) in
  let b4 := moderate b3 in
  let c2 := snd (moderate (snd (moderate
                  (answering 2%nat verdict_without_suggestion)))) in
  let c3 := moderate c2 in
  @detect_offensive_content rt (utf8 "Какая сегодня погода?") = false
  /\ max_off_topic_attempts default_settings = 3
  /\ (fst a1 = Ok true /\ count_of (snd a1) = 0 /\ outbox (snd a1) = [])
  /\ (count_of b3 = 3 /\ fsm_state b3 = Some COLLECTING_NICHE
      /\ fst b4 = Ok true /\ count_of (snd b4) = 3
      /\ fsm_state (snd b4) = Some COLLECTING_NICHE
      /\ outbox (snd b4) = outbox b3)
  /\ (count_of c2 = 2
      /\ fst c3 = Ok true /\ count_of (snd c3) = 2).
Proof. vm_compute. repeat split. Qed.

(** Witness of C4: an off-topic verdict in a fresh session. *)
Lemma off_topic_counter_witness :
  let rt := scenario_runtime [verdict false] in
  let w := started (fun _ _ => reply (utf8 "stop") (json_text (verdict false))) in
  let w' :=
    snd (@check_and_moderate rt scenario_prompts (@proxy_api_client rt)
           default_settings (utf8 "Какая сегодня погода?")
           (utf8 "COLLECTING_NICHE")
           (get_state_question (utf8 "COLLECTING_NICHE")) w) in
  data w' = set_off_topic_count 1 (data w)
  /\ fsm_state w' = fsm_state w
  /\ ~ cleared w'.
Proof.
  intros rt w.
  assert (Hd : @detect_offensive_content rt (utf8 "Какая сегодня погода?") = false)
    by (vm_compute; reflexivity).
  assert (Hc : @check_relevance rt scenario_prompts (@proxy_api_client rt)
                 default_settings (utf8 "COLLECTING_NICHE")
                 (get_state_question (utf8 "COLLECTING_NICHE"))
                 (utf8 "Какая сегодня погода?") w
               = (Ok (verdict false),
                  snd (@check_relevance rt scenario_prompts (@proxy_api_client rt)
                         default_settings (utf8 "COLLECTING_NICHE")
                         (get_state_question (utf8 "COLLECTING_NICHE"))
                         (utf8 "Какая сегодня погода?") w)))
    by (vm_compute; reflexivity).
  assert (Hg : @py_getitem rt (verdict false) (utf8 "is_relevant") = Ok (PyBool false))
    by (vm_compute; reflexivity).
  exact (proj1 (@off_topic_counter_policy rt scenario_prompts default_settings)
           _ _ _ _ _ _ _ Hd Hc Hg).
Defined.

(** Witness of C9: the remote cannot be reached. *)
Lemma moderation_failure_witness :
  let rt := scenario_runtime [] in
  let w := started (fun _ _ => raises (mk_exn OtherException (utf8 "Connection error."))) in
  let outcome :=
    @handle_niche rt scenario_prompts (@proxy_api_client rt) default_settings
      (utf8 " Фитнес дома ") w in
  fst outcome = Ok tt
  /\ fsm_state (snd outcome) = Some COLLECTING_GOAL
  /\ niche (data (snd outcome)) = Some (utf8 "Фитнес дома")
  /\ off_topic_count (data (snd outcome)) = Some 0.
Proof.
  intros rt w.
  assert (Hd : @detect_offensive_content rt (utf8 " Фитнес дома ") = false)
    by (vm_compute; reflexivity).
  destruct (@check_relevance rt scenario_prompts (@proxy_api_client rt)
              default_settings (utf8 "COLLECTING_NICHE")
              (get_state_question (utf8 "COLLECTING_NICHE"))
              (utf8 " Фитнес дома ") w) as [[result|e] w1] eqn:Hc.
  - exfalso. vm_compute in Hc. discriminate Hc.
  - destruct (@moderation_failure_is_fail_open rt scenario_prompts default_settings
                _ _ _ _ _ _ Hd Hc) as (_ & _ & _ & _ & _ & Hn & _).
    destruct (Hn eq_refl eq_refl) as (H1 & H2 & H3 & H4).
    split; [exact H1|]. split; [exact H2|].
    split; [rewrite H3; vm_compute; reflexivity | exact H4].
Defined.

(** Counterexample of C10 as stated: a reply that parses, with is_relevant
    and reason and without suggestion, makes [check_relevance] raise. *)
Lemma verdict_without_suggestion_raises :
  let rt := scenario_runtime [verdict_without_suggestion] in
  let w := started (fun _ _ => reply (utf8 "stop") (json_text verdict_without_suggestion)) in
  @json_loads rt (json_text verdict_without_suggestion)
  = Some (PyDict [(utf8 "is_relevant", PyBool true);
                  (utf8 "reason", PyStr (utf8 "checked"))])
  /\ fst (@check_relevance rt scenario_prompts (@proxy_api_client rt)
            default_settings (utf8 "COLLECTING_NICHE")
            (get_state_question (utf8 "COLLECTING_NICHE"))
            (utf8 "Фитнес дома") w)
     = Raise (mk_exn ModerationError
                (utf8 "Отсутствует поле 'suggestion' в ответе модерации")).
Proof. vm_compute. split; reflexivity. Qed.

(** Witness of C10: a verdict whose suggestion is null. *)
Lemma check_relevance_witness :
  let rt := scenario_runtime [verdict true] in
  let w := started (fun _ _ => reply (utf8 "stop") (json_text (verdict true))) in
  fst (@check_relevance rt scenario_prompts (@proxy_api_client rt)
         default_settings (utf8 "COLLECTING_NICHE")
         (get_state_question (utf8 "COLLECTING_NICHE"))
         (utf8 "Фитнес дома") w)
  = Ok (verdict true).
Proof.
  intros rt w.
  pose (step := utf8 "COLLECTING_NICHE").
  pose (q := get_state_question step).
  pose (text := utf8 "Фитнес дома").
  pose (prompt := lines [step; q; text]).
  pose (a := mk_args (build_messages (utf8 "moderator") prompt)
               (model_text_generation default_settings)
               (temperature_moderation default_settings) (Some 200) true ∅).
  assert (Hc : @chat_completion rt a w
               = (Ok (json_text (verdict true)), snd (@chat_completion rt a w)))
    by (vm_compute; reflexivity).
  assert (Hj : @json_loads rt (json_text (verdict true))
               = Some (PyDict [(utf8 "is_relevant", PyBool true);
                               (utf8 "reason", PyStr (utf8 "checked"));
                               (utf8 "suggestion", PyNone)]))
    by (vm_compute; reflexivity).
  pose proof (@check_relevance_requires_suggestion rt scenario_prompts
                default_settings step q text w prompt _ _ _
                eq_refl Hc Hj eq_refl eq_refl) as Hr.
  change (has_key _ (utf8 "suggestion")) with true in Hr.
  cbv beta iota in Hr. exact (f_equal fst Hr).
Defined.

(** ** services/idea_generator.py *)

Section IdeaFacts.
Context `{Runtime} `{Prompts} `{ApiClient}.
Variable settings : Settings.

Lemma str_eqb_eq a b : str_eqb a b = true <-> a = b.
Proof. unfold str_eqb. apply bool_decide_eq_true. Qed.

Lemma dict_lookup_set_eq d k x : dict_lookup (dict_set d k x) k = Some x.
Proof.
  induction d as [|[k' v] rest IH]; simpl.
  - unfold str_eqb. rewrite bool_decide_eq_true_2 by reflexivity. reflexivity.
  - destruct (str_eqb k' k) eqn:E; simpl; rewrite E; [reflexivity | exact IH].
Qed.

Lemma dict_lookup_set_ne d k k' x :
  k <> k' -> dict_lookup (dict_set d k x) k' = dict_lookup d k'.
Proof.
  intros Hne. induction d as [|[k0 v] rest IH]; simpl.
  - destruct (str_eqb k k') eqn:E; [|reflexivity].
    apply str_eqb_eq in E. contradiction.
  - destruct (str_eqb k0 k) eqn:E; simpl.
    + apply str_eqb_eq in E. subst k0.
      destruct (str_eqb k k') eqn:E'; [|reflexivity].
      apply str_eqb_eq in E'. contradiction.
    + destruct (str_eqb k0 k'); [reflexivity | exact IH].
Qed.

Lemma find_missing_none d fields :
  find (fun f => negb (has_key d f)) fields = None
  <-> forallb (has_key d) fields = true.
Proof.
  induction fields as [|f rest IH]; simpl; [tauto|].
  destruct (has_key d f); simpl; [exact IH | split; discriminate].
Qed.

Lemma id_is_not_key_elements : utf8 "id" <> utf8 "key_elements".
Proof. vm_compute. discriminate. Qed.

Lemma has_key_lookup d k :
  has_key d k = true -> exists x, dict_lookup d k = Some x.
Proof. unfold has_key. destruct (dict_lookup d k); [eauto | discriminate]. Qed.

(** One turn of the loop returns exactly on a well-formed item, and returns
    it renumbered. *)
Lemma check_idea_returns i v w v' w' :
  check_idea i v w = (Ok v', w') ->
  well_formed_idea v = true /\ v' = renumbered i v /\ w' = w.
Proof.
  unfold check_idea. rewrite bind_unfold.
  destruct v as [| b | n | f | s | l | d];
    try (pose proof (require_fields_preserves eq GenerationError
           (fun field => utf8 "Отсутствует поле '" ++ field ++ utf8 "' в идее "
                           ++ str_of_nat i) idea_fields) as Hp;
         match goal with |- context [require_fields _ _ _ ?x w] =>
           specialize (Hp x w);
           destruct (require_fields GenerationError
                       (fun field => utf8 "Отсутствует поле '" ++ field
                                       ++ utf8 "' в идее " ++ str_of_nat i)
                       idea_fields x w) as [[[]|e] w0]
         end; [|discriminate];
         unfold py_getitem, interp_raise; rewrite bind_lift_raise; discriminate).
  rewrite require_fields_dict.
  destruct (find _ idea_fields) as [f|] eqn:F; [discriminate|].
  apply find_missing_none in F.
  assert (Hid : has_key d (utf8 "id") = true)
    by (unfold idea_fields in F; cbn [forallb] in F;
        destruct (has_key d (utf8 "id")); [reflexivity | discriminate]).
  destruct (has_key_lookup _ _ Hid) as (id & Eid).
  unfold py_getitem at 1. rewrite Eid, bind_lift_ok.
  unfold well_formed_idea, renumbered, integer_id, idea_id. rewrite F, Eid.
  destruct (isinstance_int id); cbn [negb andb].
  - rewrite bind_ret. unfold py_getitem.
    destruct (dict_lookup d (utf8 "key_elements")) as [ke|];
      [rewrite bind_lift_ok | unfold interp_raise; rewrite bind_lift_raise;
                              discriminate].
    destruct ke; cbn [isinstance_list negb]; try discriminate.
    intros [= <- <-]. auto.
  - unfold py_setitem. rewrite bind_lift_ok. unfold py_getitem.
    rewrite (dict_lookup_set_ne _ _ _ _ id_is_not_key_elements).
    destruct (dict_lookup d (utf8 "key_elements")) as [ke|];
      [rewrite bind_lift_ok | unfold interp_raise; rewrite bind_lift_raise;
                              discriminate].
    destruct ke; cbn [isinstance_list negb]; try discriminate.
    intros [= <- <-]. auto.
Qed.

Lemma check_idea_well_formed i v w :
  well_formed_idea v = true -> check_idea i v w = (Ok (renumbered i v), w).
Proof.
  destruct v as [| b | n | f | s | l | d]; try discriminate.
  unfold well_formed_idea. intros Hwf.
  apply andb_prop in Hwf as [Hf Hk].
  assert (Hid : has_key d (utf8 "id") = true)
    by (unfold idea_fields in Hf; cbn [forallb] in Hf;
        destruct (has_key d (utf8 "id")); [reflexivity | discriminate]).
  destruct (has_key_lookup _ _ Hid) as (id & Eid).
  unfold check_idea. rewrite bind_unfold, require_fields_dict.
  rewrite (proj2 (find_missing_none d idea_fields) Hf).
  unfold py_getitem at 1. rewrite Eid, bind_lift_ok.
  unfold renumbered, integer_id, idea_id. rewrite Eid.
  destruct (dict_lookup d (utf8 "key_elements")) as [ke|] eqn:Eke;
    [|discriminate].
  destruct ke; try discriminate.
  destruct (isinstance_int id); cbn [negb].
  - rewrite bind_ret. unfold py_getitem. rewrite Eke, bind_lift_ok. reflexivity.
  - unfold py_setitem. rewrite bind_lift_ok. unfold py_getitem.
    rewrite (dict_lookup_set_ne _ _ _ _ id_is_not_key_elements), Eke, bind_lift_ok.
    reflexivity.
Qed.


Lemma check_ideas_well_formed i items w :
  forallb well_formed_idea items = true ->
  check_ideas i items w = (Ok (renumber_from i items), w).
Proof.
  revert i. induction items as [|item rest IH]; intros i Hwf; [reflexivity|].
  cbn [forallb] in Hwf. apply andb_prop in Hwf as [Hi Hr].
  cbn [check_ideas renumber_from].
  rewrite bind_unfold, (check_idea_well_formed _ _ _ Hi).
  rewrite bind_unfold, (IH _ Hr). reflexivity.
Qed.

Lemma renumber_from_length i items :
  length (renumber_from i items) = length items.
Proof.
  revert i. induction items as [|item rest IH]; intros i; simpl;
    [reflexivity | rewrite IH; reflexivity].
Qed.

End IdeaFacts.

Section IdeaGeneration.
Context `{Runtime} `{Prompts} `{ApiClient}.
Variable settings : Settings.


(** [generate_ideas] on a reply that parses to an object with a list under
    ideas. *)
Lemma generate_ideas_parsed niche goal format w prompt response w1 d items :
  build_ideas_prompt niche goal format = Ok prompt ->
  client_chat_completion
    (mk_args (build_messages (utf8 "creator") prompt)
             (model_text_generation settings) (temperature_ideas settings)
             (Some (max_tokens_ideas settings)) true ∅) w = (Ok response, w1) ->
  json_loads response = Some (PyDict d) ->
  dict_lookup d (utf8 "ideas") = Some (PyList items) ->
  generate_ideas settings niche goal format w
  = if (length items <? 5)%nat then
      (Raise (mk_exn GenerationError
                (utf8 "Недостаточно идей: получено " ++ str_of_nat (length items)
                   ++ utf8 ", ожидалось 5")), w1)
    else
      match check_ideas 1 (take 5 items) w1 with
      | (Ok checked, w2) => (Ok checked, w2)
      | (Raise e, w2) =>
          (Raise (if issubclass (exc_type e) GenerationError then e
                  else mk_exn GenerationError
                         (utf8 "Не удалось сгенерировать идеи: " ++ exc_str e)),
           w2)
      end.
Proof.
  intros Hp Hc Hj Hi. unfold generate_ideas.
  rewrite try_unfold, Hp, bind_lift_ok, bind_unfold, Hc. cbv beta iota.
  rewrite Hj, bind_ret. rewrite py_contains_dict. unfold has_key. rewrite Hi.
  rewrite bind_lift_ok. cbn [negb]. unfold py_getitem. rewrite Hi, bind_lift_ok.
  rewrite bind_unfold.
  destruct (length items <? 5)%nat eqn:Elt.
  - assert (E5 : (length items =? 5)%nat = false)
      by (apply Nat.eqb_neq; apply Nat.ltb_lt in Elt; lia).
    rewrite E5. reflexivity.
  - destruct (negb (length items =? 5)%nat);
      cbv beta iota delta [ret]; rewrite bind_unfold;
      destruct (check_ideas 1 (take 5 items) w1) as [[checked|e] w2];
      try reflexivity;
      cbv beta iota; destruct (issubclass (exc_type e) GenerationError);
      reflexivity.
Qed.

End IdeaGeneration.

Section IdeaBatch.
Context `{Runtime} `{Prompts} `{ApiClient}.
Variable settings : Settings.

Lemma renumber_from_lookup i items k item :
  items !! k = Some item ->
  renumber_from i items !! k = Some (renumbered (i + k) item).
Proof.
  revert i k. induction items as [|x rest IH]; intros i k; [discriminate|].
  destruct k as [|k]; cbn [renumber_from].
  - intros [= ->]. rewrite Nat.add_0_r. reflexivity.
  - intros Hk.
    change (renumber_from (S i) rest !! k = Some (renumbered (i + S k) item)).
    rewrite (IH (S i) k Hk).
    replace (S i + k)%nat with (i + S k)%nat by lia. reflexivity.
Qed.

Lemma idea_id_renumbered i item :
  well_formed_idea item = true ->
  idea_id (renumbered i item)
  = if integer_id item then idea_id item else Some (PyInt (Z.of_nat i)).
Proof.
  destruct item as [| b | n | f | s | l | d]; try discriminate.
  intros _. unfold renumbered.
  destruct (integer_id (PyDict d)); [reflexivity|].
  unfold idea_id. apply dict_lookup_set_eq.
Qed.



(** C5, amended. For a reply that parses to exactly five well-formed idea
    items, [generate_ideas] returns the five items in their order, each as
    it came except that an id that is not an integer is replaced by the
    1-based position; an integer id is kept as it is, whatever its value
    (a boolean counts as an integer). When no source id is an integer the
    ids are 1, 2, 3, 4, 5. *)
Theorem five_ideas_keep_integer_ids
    (niche goal format : option pystr) (w : world) (prompt response : pystr)
    (w1 : world) (d : list (pystr * pyval)) (items : list pyval) :
  build_ideas_prompt niche goal format = Ok prompt ->
  client_chat_completion
    (mk_args (build_messages (utf8 "creator") prompt)
             (model_text_generation settings) (temperature_ideas settings)
             (Some (max_tokens_ideas settings)) true ∅) w = (Ok response, w1) ->
  json_loads response = Some (PyDict d) ->
  dict_lookup d (utf8 "ideas") = Some (PyList items) ->
  length items = 5%nat ->
  forallb well_formed_idea items = true ->
  fst (generate_ideas settings niche goal format w) = Ok (renumber_from 1 items)
  /\ length (renumber_from 1 items) = 5%nat
  /\ (forall k item,
        items !! k = Some item ->
        renumber_from 1 items !! k = Some (renumbered (S k) item)
        /\ idea_id (renumbered (S k) item)
           = if integer_id item then idea_id item
             else Some (PyInt (Z.of_nat (S k))))
  /\ (forallb (fun item => negb (integer_id item)) items = true ->
      map idea_id (renumber_from 1 items)
      = [Some (PyInt 1); Some (PyInt 2); Some (PyInt 3); Some (PyInt 4);
         Some (PyInt 5)]).
Proof.
  intros Hp Hc Hj Hi Hlen Hwf.
  rewrite (generate_ideas_parsed settings _ _ _ _ _ _ _ _ _ Hp Hc Hj Hi).
  assert (Elt : (length items <? 5)%nat = false)
    by (apply Nat.ltb_ge; lia).
  rewrite Elt, firstn_all2 by lia.
  rewrite (check_ideas_well_formed _ _ _ Hwf).
  split; [reflexivity|]. split; [rewrite renumber_from_length; exact Hlen|].
  split.
  - intros k item Hk. split; [exact (renumber_from_lookup 1 items k item Hk)|].
    apply idea_id_renumbered.
    rewrite forallb_forall in Hwf. apply Hwf.
    apply list_elem_of_In, list_elem_of_lookup. eauto.
  - intros Hno.
    destruct items as [|a [|b [|c [|x [|y [|z rest]]]]]]; try discriminate.
    cbn [forallb] in Hwf, Hno.
    repeat match goal with
           | Hx : _ && _ = true |- _ => apply andb_prop in Hx as [? ?]
           end.
    cbn [renumber_from map].
    rewrite !idea_id_renumbered by assumption.
    repeat match goal with
           | Hx : negb (integer_id ?v) = true |- _ =>
               apply negb_true_iff in Hx; rewrite Hx
           end.
    reflexivity.
Qed.


End IdeaBatch.

(** Counterexample of C5 as stated: five well-formed items whose ids are the
    integers 3, 1, 5, 2, 4 come back with the ids 3, 1, 5, 2, 4. *)
Lemma scrambled_integer_ids_are_kept :
  let items := [idea (PyInt 3) "A"; idea (PyInt 1) "B"; idea (PyInt 5) "C";
                idea (PyInt 2) "D"; idea (PyInt 4) "E"] in
  let rt := scenario_runtime [ideas_reply items] in
  let w := started (fun _ _ => reply (utf8 "stop") (json_text (ideas_reply items))) in
  let outcome :=
    fst (@generate_ideas rt scenario_prompts (@proxy_api_client rt)
           default_settings (Some (utf8 "Фитнес дома"))
           (Some (utf8 "Привлечение клиентов"))
           (Some (utf8 "Пост для Instagram")) w) in
  forallb well_formed_idea items = true
  /\ outcome = Ok items
  /\ map idea_id items
     = [Some (PyInt 3); Some (PyInt 1); Some (PyInt 5); Some (PyInt 2);
        Some (PyInt 4)].
Proof. vm_compute. repeat split. Qed.

(** Witness of C5: five items whose ids are strings, null, an object and a
    list. *)
Lemma five_ideas_witness :
  let items := [idea (PyStr (utf8 "one")) "A"; idea PyNone "B";
                idea (PyStr (utf8 "3")) "C"; idea (PyDict []) "D";
                idea (PyList []) "E"] in
  let rt := scenario_runtime [ideas_reply items] in
  let w := started (fun _ _ => reply (utf8 "stop") (json_text (ideas_reply items))) in
  let outcome :=
    fst (@generate_ideas rt scenario_prompts (@proxy_api_client rt)
           default_settings (Some (utf8 "Фитнес дома"))
           (Some (utf8 "Привлечение клиентов"))
           (Some (utf8 "Пост для Instagram")) w) in
  outcome = Ok (renumber_from 1 items)
  /\ map idea_id (renumber_from 1 items)
     = [Some (PyInt 1); Some (PyInt 2); Some (PyInt 3); Some (PyInt 4);
        Some (PyInt 5)].
Proof.
  intros items rt w.
  pose (prompt := lines [utf8 "Фитнес дома"; utf8 "Привлечение клиентов";
                         utf8 "Пост для Instagram"]).
  pose (a := mk_args (build_messages (utf8 "creator") prompt)
               (model_text_generation default_settings)
               (temperature_ideas default_settings)
               (Some (max_tokens_ideas default_settings)) true ∅).
  assert (Hc : @client_chat_completion (@proxy_api_client rt) a w
               = (Ok (json_text (ideas_reply items)),
                  snd (@chat_completion rt a w)))
    by (vm_compute; reflexivity).
  assert (Hj : @json_loads rt (json_text (ideas_reply items))
               = Some (PyDict [(utf8 "ideas", PyList items)]))
    by (vm_compute; reflexivity).
  assert (Hwf : forallb well_formed_idea items = true)
    by (vm_compute; reflexivity).
  assert (Hp : @build_ideas_prompt scenario_prompts
                 (Some (utf8 "Фитнес дома")) (Some (utf8 "Привлечение клиентов"))
                 (Some (utf8 "Пост для Instagram")) = Ok prompt)
    by reflexivity.
  assert (Hi : dict_lookup [(utf8 "ideas", PyList items)] (utf8 "ideas")
               = Some (PyList items))
    by (vm_compute; reflexivity).
  assert (Hlen : length items = 5%nat) by reflexivity.
  assert (Hno : forallb (fun item => negb (integer_id item)) items = true)
    by (vm_compute; reflexivity).
  destruct (@five_ideas_keep_integer_ids rt scenario_prompts
              (@proxy_api_client rt) default_settings
              (Some (utf8 "Фитнес дома")) (Some (utf8 "Привлечение клиентов"))
              (Some (utf8 "Пост для Instagram")) w prompt _ _ _ items
              Hp Hc Hj Hi Hlen Hwf) as (Hr & _ & _ & Hids).
  split; [exact Hr | exact (Hids Hno)].
Defined.


(** C6 evaluated: seven items are cut to the first five, and an item among
    the first five without a title, or with key elements that are a string,
    is a [GenerationError]; the same item in sixth place is not read. *)
Example idea_batches_evaluated :
  let good (n : Z) := idea (PyInt n) "A" in
  let no_title := PyDict [(utf8 "id", PyInt 2);
                          (utf8 "description", PyStr (utf8 "text"));
                          (utf8 "key_elements", PyList [])] in
  let bad_elements := PyDict [(utf8 "id", PyInt 2);
                              (utf8 "title", PyStr (utf8 "B"));
                              (utf8 "description", PyStr (utf8 "text"));
                              (utf8 "key_elements", PyStr (utf8 "photo"))] in
  let run (items : list pyval) :=
    let rt := scenario_runtime [ideas_reply items] in
    fst (@generate_ideas rt scenario_prompts (@proxy_api_client rt)
           default_settings (Some (utf8 "Фитнес дома"))
           (Some (utf8 "Привлечение клиентов"))
           (Some (utf8 "Пост для Instagram"))
           (started (fun _ _ => reply (utf8 "stop")
                                      (json_text (ideas_reply items))))) in
  run [good 1; good 2; good 3; good 4; good 5; good 6; good 7]
  = Ok [good 1; good 2; good 3; good 4; good 5]
  /\ run [good 1; good 2; good 3; good 4; good 5; no_title]
     = Ok [good 1; good 2; good 3; good 4; good 5]
  /\ run [good 1; no_title; good 3; good 4; good 5]
     = Raise (mk_exn GenerationError (utf8 "Отсутствует поле 'title' в идее 2"))
  /\ run [good 1; bad_elements; good 3; good 4; good 5]
     = Raise (mk_exn GenerationError
                (utf8 "Поле 'key_elements' в идее 2 должно быть списком")).
Proof. vm_compute. repeat split. Qed.

(* ===================================================================== *)
(** * Further properties of the client, the services and the handlers *)
(* ===================================================================== *)

(** ** api/proxyapi_client.py: what a call returns *)

Section ClientReturns.
Context `{Runtime}.

Lemma extract_content_success r w :
  generation_failure r = false ->
  exists choice rest c,
    choices r = choice :: rest
    /\ falsy_str (refusal (message choice)) = true
    /\ content (message choice) = Some c /\ c <> []
    /\ extract_content r w = (Ok c, w).
Proof.
  unfold generation_failure, extract_content.
  destruct (choices r) as [|choice rest]; [discriminate|].
  destruct (falsy_str (refusal (message choice))) eqn:Hf; [|discriminate].
  cbn [negb orb].
  destruct (content (message choice)) as [[|c0 cs]|] eqn:Hc; cbn [falsy_str];
    try discriminate.
  intros _. exists choice, rest, (c0 :: cs).
  split; [reflexivity|]. split; [exact Hf|]. split; [exact Hc|].
  split; [discriminate | reflexivity].
Qed.

Lemma classify_error_never_returns e w c w' :
  classify_error e w <> (Ok c, w').
Proof.
  destruct (classify_error_transport e w) as (e' & -> & _). discriminate.
Qed.

(** X1. [chat_completion] returns exactly when the remote answers with a
    response whose first choice has no refusal and a text that is not
    empty; it returns that text, reads no other choice, and has sent one
    request, the parameter dict. In particular it never returns the empty
    string. *)
Theorem chat_completion_returns_first_text (a : chat_args) (w : world)
    (c : pystr) (w' : world) :
  chat_completion a w = (Ok c, w') <->
  (w' = after_request (build_params a) w
   /\ c <> []
   /\ exists choice rest,
        remote w (length (sent w)) (build_params a)
        = returns (mk_completion (choice :: rest))
        /\ falsy_str (refusal (message choice)) = true
        /\ content (message choice) = Some c).
Proof.
  rewrite chat_completion_unfold.
  destruct (remote w (length (sent w)) (build_params a)) as [r|e0] eqn:Hr.
  - destruct (generation_failure r) eqn:Hg.
    + destruct (extract_content_failure r (after_request (build_params a) w) Hg)
        as (e1 & -> & _).
      split; [intros Hc; exfalso; exact (classify_error_never_returns _ _ _ _ Hc)|].
      intros (_ & Hne & choice & rest & [= ->] & Hf & Hc). exfalso.
      unfold generation_failure in Hg. cbn [choices] in Hg.
      rewrite Hf, Hc in Hg. destruct c; [congruence | discriminate].
    + destruct (extract_content_success r (after_request (build_params a) w) Hg)
        as (choice & rest & c0 & Hch & Hf & Hc & Hne & ->).
      destruct r as [chs]. cbn [choices] in Hch. subst chs.
      split.
      * intros [= <- <-]. split; [reflexivity|]. split; [exact Hne|].
        exists choice, rest. auto.
      * intros (-> & _ & ch & rs & [= <- <-] & _ & Hc').
        rewrite Hc in Hc'. injection Hc' as <-. reflexivity.
  - split; [intros Hc; exfalso; exact (classify_error_never_returns _ _ _ _ Hc)|].
    intros (_ & _ & ch & rs & [=] & _).
Qed.

End ClientReturns.

(** ** Running a computation backwards from its result *)

Section Inversion.

Lemma bind_ok_inv {A B} (m : M A) (k : A -> M B) w b w' :
  bind m k w = (Ok b, w') ->
  exists a w1, m w = (Ok a, w1) /\ k a w1 = (Ok b, w').
Proof.
  rewrite bind_unfold. destruct (m w) as [[a|e] w1]; [eauto | discriminate].
Qed.

Lemma bind_raise_inv {A B} (m : M A) (k : A -> M B) w e w' :
  bind m k w = (Raise e, w') ->
  m w = (Raise e, w')
  \/ exists a w1, m w = (Ok a, w1) /\ k a w1 = (Raise e, w').
Proof.
  rewrite bind_unfold. destruct (m w) as [[a|e0] w1].
  - intros Hk. right. exists a, w1. auto.
  - intros [= <- <-]. left. reflexivity.
Qed.

Lemma lift_ok_inv {A} (r : res A) w a w' :
  lift r w = (Ok a, w') -> r = Ok a /\ w' = w.
Proof. unfold lift. intros [= -> ->]. auto. Qed.

Lemma ret_ok_inv {A} (x : A) w a w' :
  ret x w = (Ok a, w') -> a = x /\ w' = w.
Proof. unfold ret. intros [= -> ->]. auto. Qed.

Lemma try_ok_inv {A} (m : M A) (h : exn -> M A) w a w' :
  try_except m h w = (Ok a, w') ->
  m w = (Ok a, w')
  \/ exists e w1, m w = (Raise e, w1) /\ h e w1 = (Ok a, w').
Proof.
  rewrite try_unfold. destruct (m w) as [[x|e] w1]; [auto | eauto].
Qed.

(** The handler of the services: [except Own: raise], then
    [except Exception as e: raise Own(...)]. It never returns, and what it
    raises is of the service's class. *)
Lemma wrapping_handler_raises {A} (own : exc_class) (wrap : exn -> pystr)
    (e : exn) (w : world) :
  exists e', (if issubclass (exc_type e) own then @reraise A e
              else raise own (wrap e)) w = (Raise e', w)
             /\ issubclass (exc_type e') own = true.
Proof.
  destruct (issubclass (exc_type e) own) eqn:E.
  - exists e. split; [reflexivity | exact E].
  - eexists. split; [reflexivity|]. cbn [exc_type].
    destruct own; reflexivity.
Qed.

End Inversion.

Section RequestShape.
Context `{Runtime}.

(** X2. The request [chat_completion] builds: the model and the messages
    are the arguments; response_format is the JSON object format exactly
    when [json_mode] is set, which also replaces a response_format passed
    as an extra keyword argument; a token limit of [None] or of 0 sets no
    limit field, for every model; and every extra keyword argument other
    than max_completion_tokens and response_format is passed on
    unchanged. *)
Theorem request_shape (a : chat_args) :
  kwargs_wf (kwargs a) ->
  let request := build_params a in
  request !! "model"%string = Some (PyStr (model a))
  /\ request !! "messages"%string = Some (messages a)
  /\ request !! "response_format"%string
     = (if json_mode a
        then Some (PyDict [(utf8 "type", PyStr (utf8 "json_object"))])
        else kwargs a !! "response_format"%string)
  /\ (max_tokens a = None \/ max_tokens a = Some 0 ->
      request !! "max_tokens"%string = None
      /\ request !! "max_completion_tokens"%string
         = kwargs a !! "max_completion_tokens"%string)
  /\ (forall k : string,
        ~ In k ["model"; "messages"; "temperature"; "max_tokens";
                "max_completion_tokens"; "response_format"]%string ->
        request !! k = kwargs a !! k).
Proof.
  intros Hwf request.
  assert (Hmodel : kwargs a !! "model"%string = None)
    by (apply kwargs_wf_lookup; [exact Hwf | simpl; tauto]).
  assert (Hmsg : kwargs a !! "messages"%string = None)
    by (apply kwargs_wf_lookup; [exact Hwf | simpl; tauto]).
  assert (Htok : kwargs a !! "max_tokens"%string = None)
    by (apply kwargs_wf_lookup; [exact Hwf | simpl; tauto]).
  subst request. unfold build_params.
  split; [|split; [|split; [|split]]].
  - destruct (_supports_custom_temperature (model a));
      destruct (_uses_max_completion_tokens (model a));
      (destruct (max_tokens a) as [n|]; [destruct (negb (n =? 0))|]);
      destruct (json_mode a);
      repeat (rewrite lookup_insert_ne by discriminate);
      rewrite lookup_union, Hmodel, lookup_insert_ne by discriminate;
      rewrite lookup_insert_eq; reflexivity.
  - destruct (_supports_custom_temperature (model a));
      destruct (_uses_max_completion_tokens (model a));
      (destruct (max_tokens a) as [n|]; [destruct (negb (n =? 0))|]);
      destruct (json_mode a);
      repeat (rewrite lookup_insert_ne by discriminate);
      rewrite lookup_union, Hmsg, lookup_insert_eq; reflexivity.
  - destruct (_supports_custom_temperature (model a));
      destruct (_uses_max_completion_tokens (model a));
      (destruct (max_tokens a) as [n|]; [destruct (negb (n =? 0))|]);
      destruct (json_mode a);
      repeat (rewrite lookup_insert_eq || rewrite lookup_insert_ne by discriminate);
      rewrite ?base_params_lookup by discriminate; reflexivity.
  - intros [Hn | Hn]; rewrite Hn; cbn [Z.eqb negb];
      destruct (_supports_custom_temperature (model a));
      destruct (json_mode a);
      repeat (rewrite lookup_insert_ne by discriminate);
      rewrite !base_params_lookup by discriminate; auto.
  - intros k Hk.
    assert (Hne : k <> "model"%string /\ k <> "messages"%string
                  /\ k <> "temperature"%string /\ k <> "max_tokens"%string
                  /\ k <> "max_completion_tokens"%string
                  /\ k <> "response_format"%string).
    { repeat split; intros ->; apply Hk; simpl; tauto. }
    destruct Hne as (H1 & H2 & H3 & H4 & H5 & H6).
    destruct (_supports_custom_temperature (model a));
      destruct (_uses_max_completion_tokens (model a));
      (destruct (max_tokens a) as [n|]; [destruct (negb (n =? 0))|]);
      destruct (json_mode a);
      repeat (rewrite lookup_insert_ne by congruence);
      rewrite base_params_lookup by congruence; reflexivity.
Qed.

End RequestShape.

(** Witness of X2: a request to gpt-5 in JSON mode with a limit of 0. *)
Lemma request_shape_witness :
  let rt := scenario_runtime [] in
  let a := mk_args (PyList []) (utf8 "gpt-5") 0.7%float (Some 0) true ∅ in
  kwargs_wf (kwargs a)
  /\ build_params a !! "max_tokens"%string = None
  /\ build_params a !! "max_completion_tokens"%string = None.
Proof.
  intros rt a.
  assert (Hwf : kwargs_wf (kwargs a)) by (repeat constructor).
  destruct (@request_shape rt a Hwf) as (_ & _ & _ & Hz & _).
  split; [exact Hwf|]. apply Hz. right. reflexivity.
Defined.

(** ** services/moderation.py: the verdict and the escalation texts *)

Section Verdict.
Context `{Runtime} `{Prompts} `{ApiClient}.
Variable settings : Settings.

(** The loop over the required fields either finds every field and leaves
    the world, or raises. *)
Lemma require_fields_ok cls msg fields v w w' :
  require_fields cls msg fields v w = (Ok tt, w') ->
  w' = w /\ Forall (fun f => py_contains v f = Ok true) fields.
Proof.
  induction fields as [|f rest IH]; cbn [require_fields].
  - intros [= <-]. split; [reflexivity | constructor].
  - destruct (py_contains v f) as [[|]|e] eqn:E;
      [rewrite bind_lift_ok | rewrite bind_lift_ok | rewrite bind_lift_raise];
      cbn [negb]; try discriminate.
    intros Hr. destruct (IH Hr) as (-> & Hall). split; [reflexivity|].
    constructor; [exact E | exact Hall].
Qed.

Lemma getitem_ok_dict v k x :
  py_getitem v k = Ok x -> exists d, v = PyDict d /\ dict_lookup d k = Some x.
Proof.
  destruct v as [| b | n | f | s | l | d]; try discriminate.
  unfold py_getitem. destruct (dict_lookup d k) as [y|] eqn:E; [|discriminate].
  intros [= <-]. eauto.
Qed.

(** What [check_relevance] returns, traced back through its steps. *)
Lemma check_relevance_returns_parsed_object (step q text : pystr) (w : world)
    (result : pyval) (w1 : world) :
  check_relevance settings step q text w = (Ok result, w1) ->
  exists d prompt response,
    result = PyDict d
    /\ has_key d (utf8 "is_relevant") = true
    /\ has_key d (utf8 "reason") = true
    /\ has_key d (utf8 "suggestion") = true
    /\ build_moderation_prompt step q text = Ok prompt
    /\ client_chat_completion
         (mk_args (build_messages (utf8 "moderator") prompt)
                  (model_text_generation settings)
                  (temperature_moderation settings) (Some 200) true ∅) w
       = (Ok response, w1)
    /\ json_loads response = Some result.
Proof.
  unfold check_relevance. intros Hr.
  apply try_ok_inv in Hr as [Hr | (e & w0 & _ & Hh)].
  2:{ exfalso.
      destruct (@wrapping_handler_raises pyval ModerationError
                  (fun e => utf8 "Не удалось проверить релевантность: " ++ exc_str e)
                  e w0) as (e' & He' & _).
      rewrite He' in Hh. discriminate. }
  apply bind_ok_inv in Hr as (prompt & w2 & Hp & Hr).
  apply lift_ok_inv in Hp as (Hp & ->).
  apply bind_ok_inv in Hr as (response & w3 & Hc & Hr).
  apply bind_ok_inv in Hr as (parsed & w4 & Hj & Hr).
  destruct (json_loads response) as [r|] eqn:Ej; [|discriminate].
  apply ret_ok_inv in Hj as (-> & ->).
  apply bind_ok_inv in Hr as ([] & w5 & Hf & Hr).
  apply require_fields_ok in Hf as (-> & Hall).
  apply bind_ok_inv in Hr as (v1 & w6 & G1 & Hr).
  apply lift_ok_inv in G1 as (G1 & ->).
  apply bind_ok_inv in Hr as (v2 & w7 & G2 & Hr).
  apply lift_ok_inv in G2 as (G2 & ->).
  apply ret_ok_inv in Hr as (-> & ->).
  apply getitem_ok_dict in G1 as (d & -> & L1).
  exists d, prompt, response.
  unfold required_fields in Hall.
  inversion Hall as [|? ? A1 Hall1]; subst.
  inversion Hall1 as [|? ? A2 Hall2]; subst.
  inversion Hall2 as [|? ? A3 Hall3]; subst.
  rewrite py_contains_dict in A1, A2, A3.
  injection A1 as A1. injection A2 as A2. injection A3 as A3.
  repeat split; assumption.
Qed.

(** X3. Whatever the client, a verdict [check_relevance] returns is the
    parsed reply of one successful call, and it is a JSON object that has
    the keys is_relevant, reason and suggestion: the subscript and the
    [get] of the caller cannot fail on it. *)
Theorem check_relevance_verdict_shape (step q text : pystr) (w : world)
    (result : pyval) (w1 : world) :
  check_relevance settings step q text w = (Ok result, w1) ->
  exists d prompt response,
    result = PyDict d
    /\ has_key d (utf8 "is_relevant") = true
    /\ has_key d (utf8 "reason") = true
    /\ has_key d (utf8 "suggestion") = true
    /\ build_moderation_prompt step q text = Ok prompt
    /\ client_chat_completion
         (mk_args (build_messages (utf8 "moderator") prompt)
                  (model_text_generation settings)
                  (temperature_moderation settings) (Some 200) true ∅) w
       = (Ok response, w1)
    /\ json_loads response = Some result
    /\ (exists v, py_getitem result (utf8 "is_relevant") = Ok v)
    /\ (exists s, dict_lookup d (utf8 "suggestion") = Some s
                  /\ py_get result (utf8 "suggestion") PyNone = Ok s).
Proof.
  intros Hr.
  destruct (check_relevance_returns_parsed_object step q text w result w1 Hr)
    as (d & prompt & response & -> & K1 & K2 & K3 & Hp & Hc & Hj).
  exists d, prompt, response.
  split; [reflexivity|]. split; [exact K1|]. split; [exact K2|].
  split; [exact K3|]. split; [exact Hp|]. split; [exact Hc|].
  split; [exact Hj|]. split.
  - exact (has_key_getitem _ _ K1).
  - unfold has_key in K3.
    destruct (dict_lookup d (utf8 "suggestion")) as [s|] eqn:E; [|discriminate].
    exists s. split; [reflexivity|]. unfold py_get. rewrite E. reflexivity.
Qed.

End Verdict.

(** Witness of X3: an off-topic verdict with a null suggestion. *)
Lemma check_relevance_verdict_witness :
  let rt := scenario_runtime [verdict false] in
  let w := started (fun _ _ => reply (utf8 "stop") (json_text (verdict false))) in
  exists d,
    fst (@check_relevance rt scenario_prompts (@proxy_api_client rt)
           default_settings (utf8 "COLLECTING_NICHE")
           (get_state_question (utf8 "COLLECTING_NICHE"))
           (utf8 "Какая сегодня погода?") w) = Ok (PyDict d)
    /\ has_key d (utf8 "suggestion") = true.
Proof.
  intros rt w.
  assert (Hc : @check_relevance rt scenario_prompts (@proxy_api_client rt)
                 default_settings (utf8 "COLLECTING_NICHE")
                 (get_state_question (utf8 "COLLECTING_NICHE"))
                 (utf8 "Какая сегодня погода?") w
               = (Ok (verdict false),
                  snd (@check_relevance rt scenario_prompts (@proxy_api_client rt)
                         default_settings (utf8 "COLLECTING_NICHE")
                         (get_state_question (utf8 "COLLECTING_NICHE"))
                         (utf8 "Какая сегодня погода?") w)))
    by (vm_compute; reflexivity).
  destruct (@check_relevance_verdict_shape rt scenario_prompts
              (@proxy_api_client rt) default_settings _ _ _ _ _ _ Hc)
    as (d & prompt & response & Hd & _ & _ & Hs & _).
  exists d. split; [rewrite Hc; exact (f_equal Ok Hd) | exact Hs].
Defined.

Section Escalation.
Context `{Runtime} `{Prompts} `{ApiClient}.
Variable settings : Settings.

Lemma farewell_starts_with_P : List.hd 0%N farewell_message = 1055%N.
Proof. vm_compute. reflexivity. Qed.

(** The texts of the first three attempts end with the question and are
    not the farewell. *)
Lemma redirection_reasks (n : Z) (q : pystr) :
  1 <= n <= 3 ->
  exists lead,
    get_redirection_message n q PyNone = PyStr (lead ++ nl2 ++ q)
    /\ PyStr (lead ++ nl2 ++ q) <> PyStr farewell_message.
Proof.
  intros Hn. unfold get_redirection_message.
  assert (Hhead : forall lead c,
            List.hd 0%N (lead ++ nl2 ++ q) = c -> c <> 1055%N ->
            PyStr (lead ++ nl2 ++ q) <> PyStr farewell_message).
  { intros lead c Hc Hne [= Heq]. apply Hne. rewrite <- Hc.
    transitivity (List.hd 0%N farewell_message);
      [f_equal; exact Heq | exact farewell_starts_with_P]. }
  destruct (n =? 1) eqn:E1; [|destruct (n =? 2) eqn:E2; [|destruct (n =? 3) eqn:E3]].
  - cbn [truthy]. eexists. split; [reflexivity|].
    eapply Hhead; [vm_compute; reflexivity | discriminate].
  - match goal with |- context [PyStr (?a ++ nl2 ++ ?b ++ nl2 ++ q)] =>
      exists (a ++ nl2 ++ b)
    end.
    split; [rewrite <- !app_assoc; reflexivity|].
    eapply Hhead; [vm_compute; reflexivity | discriminate].
  - match goal with
    |- context [PyStr (?a ++ nl2 ++ ?b ++ ?c ++ nl2 ++ ?d ++ nl2 ++ ?e ++ nl2 ++ q)] =>
      exists (a ++ nl2 ++ b ++ c ++ nl2 ++ d ++ nl2 ++ e)
    end.
    split; [rewrite <- !app_assoc; reflexivity|].
    eapply Hhead; [vm_compute; reflexivity | discriminate].
  - apply Z.eqb_neq in E1, E2, E3. lia.
Qed.

(** X4. The farewell text belongs to the fourth attempt, not to the
    configured maximum. When an off-topic verdict takes the counter past
    [max_off_topic_attempts] the session is cleared; the text sent with it is
    the farewell when the maximum is at least 3, but for a maximum of 1 or 2
    (the counter arriving at 2 or 3) it is the text of that attempt, which
    asks the user to answer the question again. *)
Theorem farewell_needs_a_maximum_of_three (text step q : pystr) (w : world)
    (result : pyval) (w1 : world) (v : pyval) :
  detect_offensive_content text = false ->
  check_relevance settings step q text w = (Ok result, w1) ->
  py_getitem result (utf8 "is_relevant") = Ok v ->
  truthy v = false ->
  should_end_conversation settings (count_of w + 1) = true ->
  let w' := snd (check_and_moderate settings text step q w) in
  cleared w'
  /\ (3 <= max_off_topic_attempts settings ->
      outbox w' = outbox w1 ++ [PyStr farewell_message])
  /\ (1 <= count_of w + 1 <= 3 ->
      exists lead,
        outbox w' = outbox w1 ++ [PyStr (lead ++ nl2 ++ q)]
        /\ PyStr (lead ++ nl2 ++ q) <> PyStr farewell_message).
Proof.
  intros Hd Hc Hg Ht He. cbv zeta.
  rewrite (check_and_moderate_ends settings _ _ _ _ _ _ _ Hd Hc Hg Ht He).
  cbn [snd outbox]. split; [split; reflexivity|]. split.
  - intros Hmax. unfold should_end_conversation in He.
    apply Z.gtb_lt in He. unfold get_redirection_message.
    destruct (_ =? 1) eqn:E1; [apply Z.eqb_eq in E1; lia|].
    destruct (_ =? 2) eqn:E2; [apply Z.eqb_eq in E2; lia|].
    destruct (_ =? 3) eqn:E3; [apply Z.eqb_eq in E3; lia|].
    reflexivity.
  - intros Hn. destruct (redirection_reasks (count_of w + 1) q Hn)
      as (lead & -> & Hne).
    exists lead. split; [reflexivity | exact Hne].
Qed.

Lemma py_len_raises v e : py_len v = Raise e -> exc_type e = TypeError.
Proof.
  destruct v; try discriminate; unfold py_len, interp_raise;
    intros [= <-]; reflexivity.
Qed.

Lemma redirection_without_length n q s e :
  py_len (get_redirection_message n q s) = Raise e ->
  n = 1 /\ truthy s = true /\ py_len s = Raise e.
Proof.
  unfold get_redirection_message.
  destruct (n =? 1) eqn:E1.
  - apply Z.eqb_eq in E1. destruct (truthy s); [auto | discriminate].
  - destruct (n =? 2); [discriminate|]. destruct (n =? 3); discriminate.
Qed.

(** X5. [check_and_moderate] lets an exception out in one case only,
    whatever the client: the text is not flagged as profane, the verdict
    came back off-topic at the first strike of a session whose maximum is
    not yet passed, and its suggestion is a truthy value without a length
    (a number or true), which is handed to the transport as the text; the
    exception is the [TypeError] of [len], and the strike stays recorded.
    In every other case the function returns a bool. *)
Theorem check_and_moderate_raises_only_for_a_suggestion_without_length
    (text step q : pystr) (w : world) (e : exn) (w' : world) :
  check_and_moderate settings text step q w = (Raise e, w') ->
  exists result w1 suggestion,
    detect_offensive_content text = false
    /\ check_relevance settings step q text w = (Ok result, w1)
    /\ count_of w = 0
    /\ should_end_conversation settings 1 = false
    /\ py_get result (utf8 "suggestion") PyNone = Ok suggestion
    /\ truthy suggestion = true
    /\ py_len suggestion = Raise e
    /\ exc_type e = TypeError
    /\ w' = mk_world (remote w1) (sent w1) (fsm_state w1)
                     (set_off_topic_count 1 (data w1)) (outbox w1).
Proof.
  unfold check_and_moderate. rewrite bind_unfold. unfold get_data.
  cbv beta iota. fold (count_of w).
  destruct (detect_offensive_content text) eqn:Hd.
  { run_step. destruct (_ =? 1); discriminate. }
  rewrite try_unfold, bind_unfold.
  destruct (check_relevance settings step q text w) as [[result|e0] w1] eqn:Hc.
  2:{ cbv beta iota. rewrite (check_relevance_raises _ _ _ _ _ _ _ Hc).
      discriminate. }
  cbv beta iota.
  destruct (check_relevance_returns_parsed_object settings _ _ _ _ _ _ Hc)
    as (d & _ & _ & -> & K1 & _ & _ & _).
  destruct (has_key_getitem _ _ K1) as (x & ->). rewrite bind_lift_ok.
  destruct (truthy x); [discriminate|].
  run_step.
  destruct (should_end_conversation settings (count_of w + 1)) eqn:He;
    [discriminate|].
  cbv beta iota delta [py_get]. run_step.
  destruct (py_len (get_redirection_message (count_of w + 1) q
                      match dict_lookup d (utf8 "suggestion") with
                      | Some x0 => x0
                      | None => PyNone
                      end)) as [n|e1] eqn:Hl; [discriminate|].
  cbv beta iota.
  pose proof (py_len_raises _ _ Hl) as Hty. rewrite Hty.
  change (issubclass TypeError ModerationError) with false. cbv beta iota.
  intros [= <- <-].
  apply redirection_without_length in Hl as (Hn & Htr & Hl).
  assert (Hz : count_of w = 0) by lia.
  rewrite Hz in He. cbn in He.
  eexists _, w1, _. split; [reflexivity|]. split; [reflexivity|].
  split; [exact Hz|]. split; [exact He|]. split; [reflexivity|].
  split; [exact Htr|]. split; [exact Hl|]. split; [exact Hty|].
  rewrite Hz. reflexivity.
Qed.

End Escalation.

(** Witness of X4: the default maximum of 3 and three strikes standing. *)
Lemma farewell_witness :
  let rt := scenario_runtime [verdict false] in
  let w := mk_world (fun _ _ => reply (utf8 "stop") (json_text (verdict false)))
             [] (Some COLLECTING_NICHE) (set_off_topic_count 3 started_data) [] in
  let w' :=
    snd (@check_and_moderate rt scenario_prompts (@proxy_api_client rt)
           default_settings (utf8 "Какая сегодня погода?")
           (utf8 "COLLECTING_NICHE")
           (get_state_question (utf8 "COLLECTING_NICHE")) w) in
  cleared w' /\ outbox w' = [PyStr farewell_message].
Proof.
  intros rt w.
  assert (Hd : @detect_offensive_content rt (utf8 "Какая сегодня погода?") = false)
    by (vm_compute; reflexivity).
  assert (Hc : @check_relevance rt scenario_prompts (@proxy_api_client rt)
                 default_settings (utf8 "COLLECTING_NICHE")
                 (get_state_question (utf8 "COLLECTING_NICHE"))
                 (utf8 "Какая сегодня погода?") w
               = (Ok (verdict false),
                  snd (@check_relevance rt scenario_prompts (@proxy_api_client rt)
                         default_settings (utf8 "COLLECTING_NICHE")
                         (get_state_question (utf8 "COLLECTING_NICHE"))
                         (utf8 "Какая сегодня погода?") w)))
    by (vm_compute; reflexivity).
  assert (Hg : @py_getitem rt (verdict false) (utf8 "is_relevant") = Ok (PyBool false))
    by (vm_compute; reflexivity).
  destruct (@farewell_needs_a_maximum_of_three rt scenario_prompts
              (@proxy_api_client rt) default_settings _ _ _ _ _ _ _
              Hd Hc Hg eq_refl eq_refl) as (Hcl & Hfar & _).
  split; [exact Hcl|]. exact (Hfar ltac:(vm_compute; discriminate)).
Defined.

(** With a maximum of 1, the second off-topic utterance clears the session
    and is answered with the text of the second attempt, which ends with the
    question. *)
Example maximum_of_one_clears_with_a_question :
  let rt := scenario_runtime [verdict false] in
  let settings := mk_settings (utf8 "gpt-4o-mini") (utf8 "gpt-5") 1500 2500
                    0.8%float 0.7%float 0.9%float 0.3%float 1 in
  let q := get_state_question (utf8 "COLLECTING_NICHE") in
  let w := mk_world (fun _ _ => reply (utf8 "stop") (json_text (verdict false)))
             [] (Some COLLECTING_NICHE) (set_off_topic_count 1 started_data) [] in
  let w' :=
    snd (@check_and_moderate rt scenario_prompts (@proxy_api_client rt)
           settings (utf8 "Какая сегодня погода?") (utf8 "COLLECTING_NICHE") q w) in
  fsm_state w' = None /\ data w' = empty_data
  /\ outbox w' = [get_redirection_message 2 q PyNone].
Proof. vm_compute. repeat split. Qed.

(** Witness of X5: an off-topic verdict whose suggestion is the number 5,
    in a fresh session. *)
Lemma suggestion_without_length_witness :
  let unsized := PyDict [(utf8 "is_relevant", PyBool false);
                         (utf8 "reason", PyStr (utf8 "checked"));
                         (utf8 "suggestion", PyInt 5)] in
  let rt := scenario_runtime [unsized] in
  let w := started (fun _ _ => reply (utf8 "stop") (json_text unsized)) in
  let outcome :=
    @check_and_moderate rt scenario_prompts (@proxy_api_client rt)
      default_settings (utf8 "Какая сегодня погода?") (utf8 "COLLECTING_NICHE")
      (get_state_question (utf8 "COLLECTING_NICHE")) w in
  exists e, fst outcome = Raise e /\ exc_type e = TypeError
            /\ count_of (snd outcome) = 1.
Proof.
  intros unsized rt w outcome.
  destruct outcome as [[b|e] w'] eqn:Hr.
  - exfalso. vm_compute in Hr. discriminate Hr.
  - unfold outcome in Hr.
    destruct (@check_and_moderate_raises_only_for_a_suggestion_without_length
                rt scenario_prompts (@proxy_api_client rt) default_settings
                _ _ _ _ _ _ Hr)
      as (result & w1 & s & _ & _ & _ & _ & _ & _ & _ & Hty & ->).
    exists e. split; [reflexivity|]. split; [exact Hty | reflexivity].
Defined.

(** ** services/post_generator.py: what [generate_post_text] hands on *)

Section PostText.
Context `{Runtime} `{Prompts} `{ApiClient}.
Variable settings : Settings.







End PostText.



(** ** api/proxyapi_client.py: the connection check *)

Section ConnectionCheck.
Context `{Runtime}.

(** X8. [validate_connection] never raises and sends exactly one request,
    the probe. It answers [True] exactly when the remote returns a response
    whose first choice has no refusal and a text that is not empty: a
    transport error, an empty list of choices, a refusal and an empty text
    all give [False]. *)
Theorem validate_connection_reports_a_usable_reply (w : world) :
  validate_connection w
  = (Ok match remote w (length (sent w)) (build_params probe) with
        | returns r => negb (generation_failure r)
        | raises _ => false
        end,
     after_request (build_params probe) w).
Proof.
  unfold validate_connection.
  rewrite try_unfold, bind_unfold, chat_completion_unfold.
  destruct (remote w (length (sent w)) (build_params probe)) as [r|e0].
  - destruct (generation_failure r) eqn:Hg.
    + destruct (extract_content_failure r (after_request (build_params probe) w) Hg)
        as (e1 & -> & _).
      destruct (classify_error_transport e1 (after_request (build_params probe) w))
        as (e2 & -> & _).
      reflexivity.
    + destruct (extract_content_success r (after_request (build_params probe) w) Hg)
        as (choice & rest & c & _ & _ & _ & _ & ->).
      reflexivity.
  - destruct (classify_error_transport e0 (after_request (build_params probe) w))
      as (e2 & -> & _).
    reflexivity.
Qed.

End ConnectionCheck.

(** ** services/idea_generator.py: [validate_idea] *)

Section IdeaValidity.
Context `{Runtime} `{Prompts} `{ApiClient}.

Lemma validate_idea_dict d :
  validate_idea (PyDict d) = Ok (well_formed_idea (PyDict d)).
Proof.
  unfold validate_idea, well_formed_idea, idea_fields.
  cbv beta iota zeta delta [fields_present rbind py_contains py_getitem negb
                            forallb has_key andb].
  destruct (dict_lookup d (utf8 "id")); cbv beta iota; [|reflexivity].
  destruct (dict_lookup d (utf8 "title")); cbv beta iota; [|reflexivity].
  destruct (dict_lookup d (utf8 "description")); cbv beta iota; [|reflexivity].
  destruct (dict_lookup d (utf8 "key_elements")) as [[]|]; reflexivity.
Qed.

Lemma validate_idea_not_a_dict v :
  validate_idea v = Ok true -> exists d, v = PyDict d.
Proof.
  destruct v as [| b | n | f | s | l | d]; [| | | | | |eauto];
    unfold validate_idea;
    cbv beta iota zeta delta [fields_present rbind py_contains py_getitem negb
                              interp_raise];
    try discriminate;
    repeat (match goal with |- context [if ?c then _ else _] => destruct c end;
            cbv beta iota);
    discriminate.
Qed.

(** X9. [validate_idea] and the validation loop of [generate_ideas] agree:
    it answers [True] exactly for the items the loop lets through, those
    that are an object with the fields id, title, description and
    key_elements, the last one a list. On an object it never raises; on a
    value that is not an object it answers [False] or raises, never
    [True]. *)
Theorem validate_idea_agrees_with_the_loop (idea : pyval) :
  (validate_idea idea = Ok true <-> well_formed_idea idea = true)
  /\ (forall (i : nat) (w : world),
        validate_idea idea = Ok true <->
        exists idea' w', check_idea i idea w = (Ok idea', w'))
  /\ (forall d, idea = PyDict d -> validate_idea idea = Ok (well_formed_idea idea))
  /\ ((forall d, idea <> PyDict d) -> validate_idea idea <> Ok true).
Proof.
  assert (Hiff : validate_idea idea = Ok true <-> well_formed_idea idea = true).
  { split.
    - intros Hv. destruct (validate_idea_not_a_dict idea Hv) as (d & ->).
      rewrite validate_idea_dict in Hv. congruence.
    - intros Hw. destruct idea as [| b | n | f | s | l | d]; try discriminate.
      rewrite validate_idea_dict, Hw. reflexivity. }
  split; [exact Hiff|]. split; [|split].
  - intros i w. rewrite Hiff. split.
    + intros Hw. eexists _, _. exact (check_idea_well_formed i idea w Hw).
    + intros (idea' & w' & Hc).
      exact (proj1 (check_idea_returns i idea w idea' w' Hc)).
  - intros d ->. apply validate_idea_dict.
  - intros Hnd Hv. destruct (validate_idea_not_a_dict idea Hv) as (d & ->).
    exact (Hnd d eq_refl).
Qed.

End IdeaValidity.

(** ** bot/utils.py *)

Section Truncation.

Lemma truncate_text_length (text suffix : pystr) (max_length : Z) :
  max_length < Z.of_nat (length text) ->
  Z.of_nat (length (truncate_text text max_length suffix))
  = (if max_length - Z.of_nat (length suffix) <? 0
     then Z.max (Z.of_nat (length text) + max_length - Z.of_nat (length suffix)) 0
     else max_length - Z.of_nat (length suffix))
    + Z.of_nat (length suffix).
Proof.
  intros Hlong. unfold truncate_text, slice_to.
  destruct (Z.leb_spec (Z.of_nat (length text)) max_length) as [Hle|_]; [lia|].
  rewrite length_app, length_take.
  destruct (Z.ltb_spec (max_length - Z.of_nat (length suffix)) 0); lia.
Qed.

(** X10. [truncate_text] returns a text of at most [max_length] characters
    only when the suffix itself fits: a text that is short enough is
    returned as it is; a longer one is cut to [max_length] characters, the
    suffix included, if [len(suffix) <= max_length], and otherwise (the
    slice bound is negative and counts from the end) the result is longer
    than [max_length]. With the default arguments, those of
    [safe_send_message], the result has at most 4000 characters. *)
Theorem truncate_text_fits_iff_the_suffix_fits (text suffix : pystr)
    (max_length : Z) :
  let r := truncate_text text max_length suffix in
  (Z.of_nat (length text) <= max_length -> r = text)
  /\ (max_length < Z.of_nat (length text) ->
      (Z.of_nat (length r) <= max_length
       <-> Z.of_nat (length suffix) <= max_length)
      /\ (Z.of_nat (length suffix) <= max_length ->
          r = take (Z.to_nat (max_length - Z.of_nat (length suffix))) text
              ++ suffix
          /\ Z.of_nat (length r) = max_length))
  /\ Z.of_nat (length (truncate_text text default_max_length default_suffix))
     <= default_max_length.
Proof.
  cbv zeta. split; [|split].
  3: {
    assert (Hs : length default_suffix = 3%nat) by (vm_compute; reflexivity).
    unfold default_max_length.
    destruct (Z.le_gt_cases (Z.of_nat (length text)) 4000) as [Hshort|Hlong].
    - unfold truncate_text.
      destruct (Z.leb_spec (Z.of_nat (length text)) 4000); [exact Hshort | lia].
    - rewrite truncate_text_length by lia. rewrite Hs.
      destruct (Z.ltb_spec (4000 - Z.of_nat 3) 0); lia. }
  - intros Hshort. unfold truncate_text.
    destruct (Z.leb_spec (Z.of_nat (length text)) max_length); [reflexivity | lia].
  - intros Hlong. pose proof (truncate_text_length text suffix max_length Hlong) as Hlen.
    destruct (Z.ltb_spec (max_length - Z.of_nat (length suffix)) 0) as [Hneg|Hpos] in Hlen.
    all: split; [lia|].
    all: intros Hfit; split; [|lia].
    all: unfold truncate_text, slice_to.
    all: destruct (Z.leb_spec (Z.of_nat (length text)) max_length); [lia|].
    all: destruct (Z.ltb_spec (max_length - Z.of_nat (length suffix)) 0); [lia|].
    all: f_equal; f_equal; lia.
Qed.

End Truncation.

Section Escaping.

Lemma startswith_one (c x : N) (rest : pystr) :
  startswith (x :: rest) [c] = (x =? c)%N.
Proof.
  change (startswith (x :: rest) [c]) with ((c =? x)%N && startswith rest []).
  rewrite (N.eqb_sym c x). destruct rest; apply andb_true_r.
Qed.

(** Replacing one character is a pass over the text. *)
Lemma str_replace_char (c : N) (new s : pystr) :
  str_replace [c] new s = flat_map (fun x => if (x =? c)%N then new else [x]) s.
Proof.
  unfold str_replace. induction s as [|x rest IH]; [reflexivity|].
  change (replace_go [c] new 0 (x :: rest))
    with (if startswith (x :: rest) [c]
          then new ++ replace_go [c] new 0 rest
          else x :: replace_go [c] new 0 rest).
  rewrite startswith_one, IH. cbn [flat_map].
  destruct (x =? c)%N; reflexivity.
Qed.

Lemma flat_map_flat_map {A B C} (f : A -> list B) (g : B -> list C) l :
  flat_map g (flat_map f l) = flat_map (fun x => flat_map g (f x)) l.
Proof.
  induction l as [|x l IH]; [reflexivity|].
  cbn [flat_map]. rewrite flat_map_app, IH. reflexivity.
Qed.

Lemma existsb_not_in (c : N) (chars : list N) :
  ~ In c chars -> existsb (N.eqb c) chars = false.
Proof.
  intros Hn. destruct (existsb (N.eqb c) chars) eqn:E; [|reflexivity].
  apply existsb_exists in E as (x & Hx & Hcx).
  apply N.eqb_eq in Hcx. subst x. contradiction.
Qed.

(** One more character escaped, after those of [done]. *)
Lemma escaped_step (done : list N) (c x : N) :
  ~ In c done -> c <> backslash ->
  flat_map (fun y => if (y =? c)%N then [backslash; c] else [y]) (escaped done x)
  = escaped (done ++ [c]) x.
Proof.
  intros Hfresh Hb. unfold escaped.
  rewrite existsb_app. cbn [existsb]. rewrite orb_false_r.
  destruct (existsb (N.eqb x) done) eqn:E; cbn [flat_map orb].
  - apply existsb_exists in E as (y & Hy & Hxy). apply N.eqb_eq in Hxy. subst y.
    destruct (N.eqb_spec backslash c) as [Heq|_]; [congruence|].
    destruct (N.eqb_spec x c) as [Heq|_]; [congruence|]. reflexivity.
  - destruct (N.eqb_spec x c) as [->|_]; reflexivity.
Qed.

Lemma escape_loop (chars done : list N) (text : pystr) :
  List.NoDup (done ++ chars) -> ~ In backslash chars ->
  fold_left (fun text char => str_replace [char] [backslash; char] text)
            chars (flat_map (escaped done) text)
  = flat_map (escaped (done ++ chars)) text.
Proof.
  revert done. induction chars as [|c chars IH]; intros done Hnd Hb.
  - rewrite app_nil_r. reflexivity.
  - cbn [fold_left]. rewrite str_replace_char, flat_map_flat_map.
    assert (Hfresh : ~ In c done).
    { intros Hin. apply List.NoDup_remove_2 in Hnd. apply Hnd.
      apply in_or_app. left. exact Hin. }
    assert (Hc : c <> backslash) by (intros ->; apply Hb; left; reflexivity).
    rewrite (flat_map_ext _ (escaped (done ++ [c])))
      by (intros x; apply escaped_step; assumption).
    rewrite IH.
    + rewrite <- app_assoc. reflexivity.
    + rewrite <- app_assoc. exact Hnd.
    + intros Hin. apply Hb. right. exact Hin.
Qed.

Lemma special_chars_distinct :
  List.NoDup special_chars /\ ~ In backslash special_chars.
Proof.
  split.
  - assert (Hd : bool_decide (NoDup special_chars) = true)
      by (vm_compute; reflexivity).
    apply bool_decide_eq_true in Hd. apply NoDup_ListNoDup, Hd.
  - assert (Hd : bool_decide (backslash ∉ special_chars) = true)
      by (vm_compute; reflexivity).
    apply bool_decide_eq_true in Hd.
    intros Hin. apply Hd, list_elem_of_In, Hin.
Qed.

(** X11. The loop of replacements in [escape_markdown] amounts to one pass
    over the text: each of the 18 listed characters gets one backslash
    before it and every other character is kept, so no backslash the loop
    has written is escaped again. A backslash of the text itself is not
    among the escaped characters and is kept as it is. *)
Theorem escape_markdown_is_one_pass (text : pystr) :
  escape_markdown text = flat_map (escaped special_chars) text
  /\ length special_chars = 18%nat
  /\ escaped special_chars backslash = [backslash]
  /\ (forall c, In c special_chars -> escaped special_chars c = [backslash; c]).
Proof.
  destruct special_chars_distinct as (Hnd & Hb).
  split; [|split; [|split]].
  - unfold escape_markdown.
    assert (Hid : flat_map (escaped []) text = text).
    { unfold escaped. cbn [existsb].
      induction text as [|x rest IH]; [reflexivity|].
      cbn [flat_map app]. rewrite IH. reflexivity. }
    rewrite <- Hid at 1.
    exact (escape_loop special_chars [] text Hnd Hb).
  - vm_compute. reflexivity.
  - vm_compute. reflexivity.
  - intros c Hin. unfold escaped.
    destruct (existsb (N.eqb c) special_chars) eqn:E; [reflexivity|].
    exfalso. assert (Hex : existsb (N.eqb c) special_chars = true).
    { apply existsb_exists. exists c. split; [exact Hin | apply N.eqb_refl]. }
    congruence.
Qed.

End Escaping.

(** ** bot/keyboards.py *)

Section KeyboardRows.

Lemma map_seq_from {A} (f : nat -> A) (n m : nat) :
  map f (seq n m) = map (fun k => f (n + k)%nat) (seq 0 m).
Proof.
  revert n f. induction m as [|m IH]; intros n f; [reflexivity|].
  cbn [seq map]. rewrite Nat.add_0_r. f_equal.
  rewrite (IH (S n) f), (IH 1%nat (fun k => f (n + k)%nat)).
  apply map_ext. intros k. f_equal. lia.
Qed.

Lemma py_range_app (a b c : Z) :
  a <= b <= c -> py_range a b ++ py_range b c = py_range a c.
Proof.
  intros Habc. unfold py_range.
  replace (Z.to_nat (c - a)) with (Z.to_nat (b - a) + Z.to_nat (c - b))%nat by lia.
  rewrite seq_app, map_app. apply (f_equal2 (@app Z) eq_refl).
  cbn [Nat.add]. rewrite (map_seq_from _ (Z.to_nat (b - a))).
  apply map_ext. intros k. lia.
Qed.

Lemma py_range_empty (a b : Z) : b <= a -> py_range a b = [].
Proof.
  intros Hba. unfold py_range.
  replace (Z.to_nat (b - a)) with 0%nat by lia. reflexivity.
Qed.

Lemma py_range_length (a b : Z) : length (py_range a b) = Z.to_nat (b - a).
Proof. unfold py_range. rewrite length_map, length_seq. reflexivity. Qed.

Lemma idea_rows (num_ideas : Z) :
  py_range 1 (Z.min 4 (num_ideas + 1)) ++ py_range 4 (num_ideas + 1)
  = py_range 1 (num_ideas + 1).
Proof.
  destruct (Z.le_gt_cases 4 (num_ideas + 1)) as [Hmany|Hfew].
  - rewrite Z.min_l by exact Hmany. apply py_range_app. lia.
  - rewrite Z.min_r by lia.
    rewrite (py_range_empty 4) by lia. apply app_nil_r.
Qed.

(** X12. The keyboard of [get_ideas_keyboard] has, read row by row, one
    button for each idea from 1 to [num_ideas], in order, and then the
    button that asks for other ideas, in a row of its own, the last. No row
    is empty, the first row has at most three idea buttons, and there are
    at most three rows: the second row holds every idea from the fourth
    on, however many there are. *)
Theorem ideas_keyboard_has_one_button_per_idea (num_ideas : Z) :
  let rows := get_ideas_keyboard num_ideas in
  concat rows
  = map idea_button (py_range 1 (num_ideas + 1)) ++ [regenerate_button]
  /\ length (py_range 1 (num_ideas + 1)) = Z.to_nat num_ideas
  /\ last rows = Some [regenerate_button]
  /\ Forall (fun row => row <> []) rows
  /\ (length rows <= 3)%nat
  /\ (forall row, List.hd_error rows = Some row -> (length row <= 3)%nat)
  /\ (4 <= num_ideas ->
      rows = [map idea_button (py_range 1 4);
              map idea_button (py_range 4 (num_ideas + 1));
              [regenerate_button]]).
Proof.
  cbv zeta. unfold get_ideas_keyboard. cbv zeta.
  pose proof (idea_rows num_ideas) as Hrows.
  apply (f_equal (map idea_button)) in Hrows. rewrite map_app in Hrows.
  assert (Hfirst : (length (map idea_button
                              (py_range 1 (Z.min 4 (num_ideas + 1)))) <= 3)%nat)
    by (rewrite length_map, py_range_length; lia).
  assert (Hsecond : 4 <= num_ideas ->
                    map idea_button (py_range 4 (num_ideas + 1)) <> [])
    by (intros Hn Hnil; apply (f_equal (@length _)) in Hnil;
        rewrite length_map, py_range_length in Hnil; cbn [length] in Hnil; lia).
  assert (Hmin : 4 <= num_ideas -> Z.min 4 (num_ideas + 1) = 4) by lia.
  assert (Hl1 : length (map idea_button (py_range 1 (Z.min 4 (num_ideas + 1))))
                = Z.to_nat (Z.min 4 (num_ideas + 1) - 1))
    by (rewrite length_map; apply py_range_length).
  assert (Hl2 : length (map idea_button (py_range 4 (num_ideas + 1)))
                = Z.to_nat (num_ideas + 1 - 4))
    by (rewrite length_map; apply py_range_length).
  assert (Hone : 4 <= num_ideas -> map idea_button (py_range 1 4) <> [])
    by (intros _; vm_compute; discriminate).
  rewrite <- Hrows.
  destruct (map idea_button (py_range 1 (Z.min 4 (num_ideas + 1))))
    as [|b1 row1] eqn:E1;
    destruct (map idea_button (py_range 4 (num_ideas + 1))) as [|b2 row2] eqn:E2;
    cbn [app concat length List.hd_error].
  all: rewrite ?app_nil_r.
  all: split; [rewrite <- ?app_assoc; reflexivity|].
  all: split; [rewrite py_range_length; lia|].
  all: split; [reflexivity|].
  all: split; [repeat constructor; discriminate|].
  all: split; [lia|].
  all: split; [intros row [= <-]; cbn [length] in *; lia|].
  all: intros Hn; specialize (Hmin Hn); specialize (Hsecond Hn).
  all: try (exfalso; apply Hsecond; reflexivity).
  all: rewrite Hmin in E1; rewrite <- E1 in *.
  all: try (exfalso; revert E1; vm_compute; discriminate).
  all: reflexivity.
Qed.

End KeyboardRows.

(** ** bot/utils.py: the hashtags of a post *)

Section Hashtags.
Context `{Runtime} `{Formatting}.

Lemma str_contains_unfold (hay needle : pystr) :
  str_contains hay needle
  = startswith hay needle
    || match hay with [] => false | _ :: hay' => str_contains hay' needle end.
Proof. destruct hay; reflexivity. Qed.

Lemma startswith_app (p rest : pystr) : startswith (p ++ rest) p = true.
Proof.
  induction p as [|c p IH]; [destruct rest; reflexivity|].
  cbn [app startswith]. rewrite N.eqb_refl, IH. reflexivity.
Qed.

Lemma str_contains_inside (before p after : pystr) :
  str_contains (before ++ p ++ after) p = true.
Proof.
  induction before as [|c before IH]; rewrite str_contains_unfold.
  - cbn [app]. rewrite startswith_app. reflexivity.
  - cbn [app]. rewrite IH. apply orb_true_r.
Qed.

Lemma any_hashtag_in_text (content : pystr) (tags : list pyval) :
  any_hashtag_in (PyStr content) tags
  = Ok (existsb (fun tag => str_contains content (utf8 "#" ++ py_str tag)) tags).
Proof.
  induction tags as [|tag rest IH]; [reflexivity|].
  cbn [any_hashtag_in existsb]. unfold rbind, py_contains.
  destruct (str_contains content (utf8 "#" ++ py_str tag)); [reflexivity|exact IH].
Qed.

(** The result on a post with a text and a list of hashtags. *)
Lemma format_post_text d content tags :
  dict_lookup d (utf8 "content") = Some (PyStr content) ->
  dict_lookup d (utf8 "hashtags") = Some (PyList tags) ->
  format_post_with_hashtags (PyDict d)
  = Ok (PyStr
          (match tags with
           | [] => content
           | _ :: _ =>
               if existsb (fun tag => str_contains content (utf8 "#" ++ py_str tag))
                          tags
               then content
               else content ++ nl2
                    ++ str_join (utf8 " ")
                         (map (fun tag => utf8 "#" ++ py_str tag) tags)
           end)).
Proof.
  intros Hc Hh. unfold format_post_with_hashtags, py_get.
  rewrite Hc, Hh. cbv beta iota delta [rbind].
  destruct tags as [|tag rest]; [reflexivity|].
  cbv beta iota delta [truthy py_iter]. rewrite any_hashtag_in_text.
  cbv beta iota.
  destruct (existsb _ (tag :: rest)); reflexivity.
Qed.

Lemma content_is_not_hashtags : utf8 "content" <> utf8 "hashtags".
Proof. vm_compute. discriminate. Qed.

(** X13. On a post with a text and a list of hashtags
    [format_post_with_hashtags] returns a text that begins with the post's
    text; the hashtags are appended, after a blank line, only when the list
    is not empty and none of them occurs in the text with its number sign
    (a substring test: one hashtag found anywhere keeps all of them out).
    Formatting the result again changes nothing: hashtags are appended at
    most once. *)
Theorem hashtags_are_appended_once (d : list (pystr * pyval))
    (content : pystr) (tags : list pyval) :
  dict_lookup d (utf8 "content") = Some (PyStr content) ->
  dict_lookup d (utf8 "hashtags") = Some (PyList tags) ->
  let occurs tag := str_contains content (utf8 "#" ++ py_str tag) in
  exists text,
    format_post_with_hashtags (PyDict d) = Ok (PyStr text)
    /\ startswith text content = true
    /\ (tags = [] \/ existsb occurs tags = true -> text = content)
    /\ (tags <> [] -> existsb occurs tags = false ->
        text = content ++ nl2
               ++ str_join (utf8 " ") (map (fun tag => utf8 "#" ++ py_str tag) tags))
    /\ format_post_with_hashtags
         (PyDict (dict_set d (utf8 "content") (PyStr text)))
       = Ok (PyStr text).
Proof.
  intros Hc Hh occurs.
  assert (Hagain : forall text,
            format_post_with_hashtags
              (PyDict (dict_set d (utf8 "content") (PyStr text)))
            = Ok (PyStr
                    (match tags with
                     | [] => text
                     | _ :: _ =>
                         if existsb (fun tag =>
                                       str_contains text (utf8 "#" ++ py_str tag))
                                    tags
                         then text
                         else text ++ nl2
                              ++ str_join (utf8 " ")
                                   (map (fun tag => utf8 "#" ++ py_str tag) tags)
                     end))).
  { intros text. apply format_post_text.
    - apply dict_lookup_set_eq.
    - rewrite dict_lookup_set_ne by exact content_is_not_hashtags. exact Hh. }
  rewrite (format_post_text d content tags Hc Hh).
  destruct tags as [|tag rest].
  - exists content. split; [reflexivity|].
    split; [rewrite <- (app_nil_r content) at 1; apply startswith_app|].
    split; [reflexivity|]. split; [congruence|]. apply Hagain.
  - fold occurs. destruct (existsb occurs (tag :: rest)) eqn:E.
    + exists content. split; [reflexivity|].
      split; [rewrite <- (app_nil_r content) at 1; apply startswith_app|].
      split; [reflexivity|]. split; [discriminate|].
      rewrite Hagain. fold occurs. rewrite E. reflexivity.
    + eexists. split; [reflexivity|]. split; [apply startswith_app|].
      split; [intros [|]; discriminate|]. split; [reflexivity|].
      rewrite Hagain.
      match goal with |- context [existsb ?f (tag :: rest)] =>
        assert (Hfound : existsb f (tag :: rest) = true) end.
      { cbn [existsb]. apply orb_true_iff. left.
        cbn [map str_join].
        destruct (map (fun tag0 => utf8 "#" ++ py_str tag0) rest) as [|next more].
        - rewrite <- (app_nil_r (utf8 "#" ++ py_str tag)) at 1.
          rewrite (app_assoc content nl2). apply str_contains_inside.
        - rewrite (app_assoc content nl2). apply str_contains_inside. }
      rewrite Hfound. reflexivity.
Qed.

End Hashtags.

(** Witness of X13: a post with two hashtags, none of them in its text. *)
Lemma hashtags_witness :
  let rt := scenario_runtime [] in
  let fmt := {| format_value := fun _ => utf8 "?" |} in
  let post := [(utf8 "content", PyStr (utf8 "text"));
               (utf8 "hashtags", PyList [PyStr (utf8 "a"); PyStr (utf8 "b")])] in
  @format_post_with_hashtags rt fmt (PyDict post)
  = Ok (PyStr (utf8 "text" ++ nl2 ++ utf8 "#a #b")).
Proof.
  intros rt fmt post.
  destruct (@hashtags_are_appended_once rt fmt post (utf8 "text")
              [PyStr (utf8 "a"); PyStr (utf8 "b")] eq_refl eq_refl)
    as (text & Hf & _ & _ & Ht & _).
  rewrite Hf, Ht; [vm_compute; reflexivity | discriminate | vm_compute; reflexivity].
Defined.
